(** * multibubble_lab: the bubble-universe simulator and its ethics ledger

    A shallow embedding of [src/multibubble_lab.py]: the sovereignty policy,
    the ethics engine with its ledger, the bubbles, and the stepping
    algorithm of [Multiverse], followed by the properties of the
    specification that concern them.

    Conventions of the embedding.
    - A Python [float] is an exact rational of [Q]: rounding, infinities and
      NaN are outside the model.  [max] and [min] keep Python's choice of
      argument ([pymax], [pymin]).
    - The two random generators of the program (the numpy [Generator] owned
      by a [Multiverse] and the generator of the [random] module, which is
      global to the process) and [math.exp] are library code: they are the
      operations of the class [Runtime], about which nothing is assumed
      unless a statement says so.
    - A bubble is mutated in place through its position in
      [self.universes]; the state of the [random] module is passed
      explicitly, since every [Multiverse] of a process shares it. *)

From Stdlib Require Import ZArith QArith Lqa String.
From stdpp Require Import base decidable option list strings.

Local Open Scope Q_scope.
Local Open Scope string_scope.
Local Open Scope list_scope.

(** ** Numbers *)

Definition Qltb (a b : Q) : bool := negb (Qle_bool b a).

(** [max(a, b)]: the first argument unless the second is greater. *)
Definition pymax (a b : Q) : Q := if Qltb a b then b else a.

(** [min(a, b)]: the first argument unless the second is smaller. *)
Definition pymin (a b : Q) : Q := if Qltb b a then b else a.

(** ** Library code: random generators and [math.exp] *)

Class Runtime := {
  (** state of a [numpy.random.Generator] *)
  np_state : Type;
  (** state of the generator of the [random] module *)
  py_state : Type;
  (** [np.random.default_rng(seed)]; for [None] the state stands for the one
      that the library takes from the entropy of the system *)
  np_default_rng : option Z -> np_state;
  (** [rng.normal(loc, scale)] *)
  np_normal : Q -> Q -> np_state -> Q * np_state;
  (** [rng.random()] *)
  np_random : np_state -> Q * np_state;
  (** [random.seed(seed)]: the new state does not depend on the old one *)
  py_seed : option Z -> py_state;
  (** [random.random()] *)
  py_random : py_state -> Q * py_state;
  (** [math.exp] *)
  math_exp : Q -> Q
}.

(** ** Errors *)

Inductive result (A : Type) : Type :=
  | Ok (a : A)
  | ValueError (msg : string).
Arguments Ok {A} a.
Arguments ValueError {A} msg.

(** ** Sovereignty policy *)

Record SovereigntyPolicy := { mode : string }.

Definition SovereigntyPolicy_init (m : string) : result SovereigntyPolicy :=
  if decide (m ∈ ["closed"; "consensual"; "open"])
  then Ok {| mode := m |}
  else ValueError "policy must be 'closed', 'consensual', or 'open'".

Definition scale (p : SovereigntyPolicy) : Q :=
  if decide (mode p = "open") then 1.0
  else if decide (mode p = "consensual") then 0.5 else 0.0.

Definition allows_export (p : SovereigntyPolicy) : bool :=
  bool_decide (mode p ∈ ["consensual"; "open"]).

(** ** Ethics engine *)

Record EthicsConfig := {
  consent_prob : Q;
  inherit_consent : bool;
  strictness : Q
}.

(** One entry of the ledger (a dict in the source, with these keys). *)
Record LedgerEntry := {
  le_t : nat;
  le_type : string;
  le_src : option nat;
  le_dst : option nat;
  le_proposed : Q;
  le_allowed : bool;
  le_amount : Q;
  le_policy : string;
  le_src_consents : bool;
  le_dst_consents : bool;
  le_reason : string
}.

Record EthicsEngine := {
  policy : SovereigntyPolicy;
  cfg : EthicsConfig;
  ledger : list LedgerEntry
}.

Section Program.
Context {RT : Runtime}.

(** [decide_consent]: a known consent is returned as it is; an unknown one
    is sampled from the generator of the [random] module. *)
Definition decide_consent (e : EthicsEngine) (current : option bool)
    (w : py_state) : bool * py_state :=
  match current with
  | Some b => (b, w)
  | None => let '(r, w') := py_random w in (Qltb r (consent_prob (cfg e)), w')
  end.

(** [check_and_record]: the returned triple and the engine with the new
    ledger entry appended. *)
Definition check_and_record (e : EthicsEngine) (t : nat) (ev_type : string)
    (src_id dst_id : option nat) (proposed_amt : Q)
    (src_consents dst_consents : bool) : (bool * Q * string) * EthicsEngine :=
  let '(allowed, amt, reason) :=
    if negb (allows_export (policy e)) then
      (false, proposed_amt, "policy_closed")
    else if decide (mode (policy e) = "consensual") then
      if negb (src_consents &&
               match dst_id with Some _ => dst_consents | None => true end)
      then (false, proposed_amt, "no_consent")
      else (true, proposed_amt * (scale (policy e) * strictness (cfg e)), "ok")
    else
      (true, proposed_amt * (scale (policy e) * strictness (cfg e)), "ok") in
  let amt := pymax 0.0 amt in
  let entry := {|
    le_t := t;
    le_type := ev_type;
    le_src := src_id;
    le_dst := dst_id;
    le_proposed := proposed_amt;
    le_allowed := allowed;
    le_amount := if allowed then amt else 0.0;
    le_policy := mode (policy e);
    le_src_consents := src_consents;
    le_dst_consents := dst_consents;
    le_reason := reason |} in
  ((allowed, amt, reason),
   {| policy := policy e; cfg := cfg e; ledger := ledger e ++ [entry] |}).

(** ** Bubble universe *)

Record Bubble := {
  id : nat;
  inflation_rate : Q;
  invariants : Q;
  stable : bool;
  parent_id : option nat;
  consent : option bool
}.

Definition set_inflation_rate (x : Q) (u : Bubble) : Bubble :=
  {| id := id u; inflation_rate := x; invariants := invariants u;
     stable := stable u; parent_id := parent_id u; consent := consent u |}.

Definition set_invariants (x : Q) (u : Bubble) : Bubble :=
  {| id := id u; inflation_rate := inflation_rate u; invariants := x;
     stable := stable u; parent_id := parent_id u; consent := consent u |}.

Definition set_stable (b : bool) (u : Bubble) : Bubble :=
  {| id := id u; inflation_rate := inflation_rate u;
     invariants := invariants u; stable := b; parent_id := parent_id u;
     consent := consent u |}.

(** ** Multiverse *)

(** The arguments of [Multiverse.__init__]. *)
Record MultiverseArgs := {
  a_n_initial : Z;
  a_seed : option Z;
  a_policy : string;
  a_ethics_cfg : EthicsConfig;
  a_drift_sigma : Q;
  a_tunnel_rate : Q;
  a_decay_rate : Q;
  a_decay_inflection : Q;
  a_decay_slope : Q;
  a_birth_export_mean : Q;
  a_birth_export_sigma : Q;
  a_collapse_export_frac : Q;
  a_max_bubbles : Z;
  a_inf_mean : Q;
  a_inf_sigma : Q
}.

(** The attributes of a [Multiverse] that [__init__] sets once. *)
Record Dynamics := {
  drift_sigma : Q;
  tunnel_rate : Q;
  decay_rate : Q;
  decay_inflection : Q;
  decay_slope : Q;
  birth_export_mean : Q;
  birth_export_sigma : Q;
  collapse_export_frac : Q;
  max_bubbles : Z
}.

(** A [Multiverse] object: the attributes that change, and [dyn]. *)
Record Multiverse := {
  rng : np_state;
  ethics : EthicsEngine;
  dyn : Dynamics;
  universes : list Bubble;
  t : nat;
  exported_total : Q
}.

Definition set_rng (g : np_state) (m : Multiverse) : Multiverse :=
  {| rng := g; ethics := ethics m; dyn := dyn m; universes := universes m;
     t := t m; exported_total := exported_total m |}.

Definition set_ethics (e : EthicsEngine) (m : Multiverse) : Multiverse :=
  {| rng := rng m; ethics := e; dyn := dyn m; universes := universes m;
     t := t m; exported_total := exported_total m |}.

Definition set_universes (l : list Bubble) (m : Multiverse) : Multiverse :=
  {| rng := rng m; ethics := ethics m; dyn := dyn m; universes := l;
     t := t m; exported_total := exported_total m |}.

Definition set_t (n : nat) (m : Multiverse) : Multiverse :=
  {| rng := rng m; ethics := ethics m; dyn := dyn m;
     universes := universes m; t := n; exported_total := exported_total m |}.

Definition set_exported_total (x : Q) (m : Multiverse) : Multiverse :=
  {| rng := rng m; ethics := ethics m; dyn := dyn m;
     universes := universes m; t := t m; exported_total := x |}.

(** The founders: [n] rounds of the loop of [__init__], from generator
    states [g] and [w] and the bubbles [us] created so far. *)
Fixpoint founders (n : nat) (inf_mean inf_sigma : Q) (e : EthicsEngine)
    (g : np_state) (w : py_state) (us : list Bubble)
    : np_state * py_state * list Bubble :=
  match n with
  | O => (g, w, us)
  | S n' =>
      let '(x, g') := np_normal inf_mean inf_sigma g in
      let inf := pymax 0.0 x in
      let '(c, w') := decide_consent e None w in
      founders n' inf_mean inf_sigma e g' w'
        (us ++ [{| id := length us; inflation_rate := inf; invariants := 0.0;
                   stable := true; parent_id := None; consent := Some c |}])
  end.

(** [Multiverse.__init__], run when the [random] module is in state [w]:
    the new object, or the error raised, and the state of the [random]
    module afterwards.  Both generators are seeded before the policy is
    checked. *)
Definition Multiverse_init (a : MultiverseArgs) (w : py_state)
    : result Multiverse * py_state :=
  let g := np_default_rng (a_seed a) in
  let w := py_seed (a_seed a) in
  match SovereigntyPolicy_init (a_policy a) with
  | ValueError msg => (ValueError msg, w)
  | Ok p =>
      let e := {| policy := p; cfg := a_ethics_cfg a; ledger := [] |} in
      let d := {| drift_sigma := a_drift_sigma a;
                  tunnel_rate := a_tunnel_rate a;
                  decay_rate := a_decay_rate a;
                  decay_inflection := a_decay_inflection a;
                  decay_slope := a_decay_slope a;
                  birth_export_mean := a_birth_export_mean a;
                  birth_export_sigma := a_birth_export_sigma a;
                  collapse_export_frac := a_collapse_export_frac a;
                  max_bubbles := a_max_bubbles a |} in
      let '(g', w', us) :=
        founders (Z.to_nat (a_n_initial a)) (a_inf_mean a) (a_inf_sigma a)
          e g w [] in
      (Ok {| rng := g'; ethics := e; dyn := d; universes := us; t := O;
             exported_total := 0.0 |}, w')
  end.

(** *** Dynamics *)

Definition _collapse_prob (m : Multiverse) (u : Bubble) : Q :=
  let x := inflation_rate u - decay_inflection (dyn m) in
  let logistic := 1.0 / (1.0 + math_exp (- decay_slope (dyn m) * x)) in
  let p := decay_rate (dyn m) * (0.5 + logistic) in
  pymin 0.95 (pymax 0.0 p).

(** The state of one call of [step] while its loop runs: the object, the
    local list [new_universes], and the generator of the [random] module. *)
Record LoopState := {
  sim : Multiverse;
  new_universes : list Bubble;
  glob : py_state
}.

Definition with_sim (f : Multiverse -> Multiverse) (s : LoopState) : LoopState :=
  {| sim := f (sim s); new_universes := new_universes s; glob := glob s |}.

(** The loop body works on the bubble at position [i] of [self.universes]. *)
Definition at_bubble (i : nat) (s : LoopState) (k : Bubble -> LoopState)
    : LoopState :=
  match universes (sim s) !! i with
  | Some u => k u
  | None => s
  end.

Definition put_bubble (i : nat) (u : Bubble) (m : Multiverse) : Multiverse :=
  set_universes (<[i := u]> (universes m)) m.

(** drift *)
Definition drift (i : nat) (s : LoopState) : LoopState :=
  at_bubble i s (fun u =>
    let '(d, g) := np_normal 0.0 (drift_sigma (dyn (sim s))) (rng (sim s)) in
    let u' := set_inflation_rate (pymax 0.0 (inflation_rate u + d)) u in
    with_sim (fun m => put_bubble i u' (set_rng g m)) s).

(** internal production *)
Definition produce (i : nat) (s : LoopState) : LoopState :=
  at_bubble i s (fun u =>
    let u' := set_invariants
                (invariants u + (0.05 + 0.15 * inflation_rate u)) u in
    with_sim (put_bubble i u') s).

(** tunneling (spawn child) *)
Definition tunnel (i : nat) (s : LoopState) : LoopState :=
  at_bubble i s (fun u =>
    let m := sim s in
    if (Z.of_nat (length (universes m) + length (new_universes s))
          <? max_bubbles (dyn m))%Z then
      let '(r, g1) := np_random (rng m) in
      if Qltb r (tunnel_rate (dyn m)) then
        let '(ci, g2) := np_normal (inflation_rate u) 0.05 g1 in
        let child_inf := pymax 0.0 ci in
        let '(child_consent, w1) :=
          if inherit_consent (cfg (ethics m)) then (consent u, glob s)
          else let '(c, w') := decide_consent (ethics m) None (glob s) in
               (Some c, w') in
        let child := {|
          id := length (universes m) + length (new_universes s);
          inflation_rate := child_inf;
          invariants := 0.0;
          stable := true;
          parent_id := Some (id u);
          consent := child_consent |} in
        let '(p, g3) :=
          np_normal (birth_export_mean (dyn m)) (birth_export_sigma (dyn m))
            g2 in
        let proposed := pymax 0.0 p in
        let proposed := pymin proposed (invariants u) in
        let '(src_consents, w2) := decide_consent (ethics m) (consent u) w1 in
        let '(dst_consents, w3) :=
          decide_consent (ethics m) (consent child) w2 in
        let '((allowed, amt, _), e') :=
          check_and_record (ethics m) (t m) "birth" (Some (id u))
            (Some (id child)) proposed src_consents dst_consents in
        let m' := set_ethics e' (set_rng g3 m) in
        if allowed && Qltb 0 amt then
          {| sim := set_exported_total (exported_total m + amt)
                      (put_bubble i
                         (set_invariants (invariants u - amt) u) m');
             new_universes :=
               new_universes s
                 ++ [set_invariants (invariants child + amt) child];
             glob := w3 |}
        else
          {| sim := m'; new_universes := new_universes s ++ [child];
             glob := w3 |}
      else with_sim (set_rng g1) s
    else s).

(** collapse *)
Definition collapse (i : nat) (s : LoopState) : LoopState :=
  at_bubble i s (fun u =>
    let m := sim s in
    let '(r, g1) := np_random (rng m) in
    if Qltb r (_collapse_prob m u) then
      let proposed := collapse_export_frac (dyn m) * invariants u in
      let '(src_consents, w1) :=
        decide_consent (ethics m) (consent u) (glob s) in
      let '((allowed, amt, _), e') :=
        check_and_record (ethics m) (t m) "collapse" (Some (id u)) None
          proposed src_consents true in
      let m' := set_ethics e' (set_rng g1 m) in
      let m' := if allowed && Qltb 0.0 amt
                then set_exported_total (exported_total m + amt) m'
                else m' in
      {| sim := put_bubble i (set_stable false (set_invariants 0.0 u)) m';
         new_universes := new_universes s;
         glob := w1 |}
    else with_sim (set_rng g1) s).

(** One round of the loop of [step], for the bubble at position [i]. *)
Definition visit (s : LoopState) (i : nat) : LoopState :=
  at_bubble i s (fun u =>
    if negb (stable u) then s
    else collapse i (tunnel i (produce i (drift i s)))).

(** [Multiverse.step], run when the [random] module is in state [w]. *)
Definition step (m : Multiverse) (w : py_state) : Multiverse * py_state :=
  let m := set_t (t m + 1) m in
  let s := foldl visit {| sim := m; new_universes := []; glob := w |}
             (seq 0 (length (universes m))) in
  (set_universes (universes (sim s) ++ new_universes s) (sim s), glob s).

(** *** Metrics *)

Record Metrics := {
  m_t : nat;
  m_universes_total : nat;
  m_universes_stable : nat;
  m_RCI : Q;
  m_dE : Q;
  m_mean_inflation : Q;
  m_mean_invariants : Q
}.

Definition Qsum (l : list Q) : Q := foldr Qplus 0 l.

(** [np.mean] of a list *)
Definition np_mean (l : list Q) : Q :=
  Qsum l / inject_Z (Z.of_nat (length l)).

Definition stable_count (us : list Bubble) : nat :=
  length (filter (fun u => stable u = true) us).

Definition metrics (m : Multiverse) : Metrics :=
  let total := length (universes m) in
  let stable_n := stable_count (universes m) in
  let alive := filter (fun u => stable u = true) (universes m) in
  {| m_t := t m;
     m_universes_total := total;
     m_universes_stable := stable_n;
     m_RCI := match total with
              | O => 0.0
              | _ => inject_Z (Z.of_nat stable_n) / inject_Z (Z.of_nat total)
              end;
     m_dE := exported_total m;
     m_mean_inflation := match stable_n with
                         | O => 0.0
                         | _ => np_mean (inflation_rate <$> alive)
                         end;
     m_mean_invariants := match stable_n with
                          | O => 0.0
                          | _ => np_mean (invariants <$> alive)
                          end |}.

(** *** Runs *)

(** [n] calls of [step] in a row. *)
Fixpoint steps (n : nat) (m : Multiverse) (w : py_state)
    : Multiverse * py_state :=
  match n with
  | O => (m, w)
  | S n' => let '(m', w') := step m w in steps n' m' w'
  end.

(** The metrics that [run] collects in [history]: one snapshot before the
    first step and one after each of [n] steps, with the final object. *)
Fixpoint history (n : nat) (m : Multiverse) (w : py_state)
    : list Metrics * Multiverse * py_state :=
  match n with
  | O => ([metrics m], m, w)
  | S n' =>
      let '(m', w') := step m w in
      let '(h, mf, wf) := history n' m' w' in
      (metrics m :: h, mf, wf)
  end.

(** What a run shows: the metrics of every step and the ledger at the
    end.  [run] builds the object and steps it [n] times, nothing else
    drawing from the [random] module in between. *)
Definition run (a : MultiverseArgs) (n : nat) (w : py_state)
    : result (list Metrics * list LedgerEntry) :=
  match Multiverse_init a w with
  | (ValueError msg, _) => ValueError msg
  | (Ok m, w') =>
      let '(h, mf, _) := history n m w' in Ok (h, ledger (ethics mf))
  end.

(** ** Vocabulary of the statements about the loop *)

(** The attributes that no operation of the loop changes. *)
Definition frame (s s' : LoopState) : Prop :=
  dyn (sim s') = dyn (sim s)
  /\ t (sim s') = t (sim s)
  /\ policy (ethics (sim s')) = policy (ethics (sim s))
  /\ cfg (ethics (sim s')) = cfg (ethics (sim s))
  /\ length (universes (sim s')) = length (universes (sim s)).

(** The loop state in which [step] enters its loop. *)
Definition enter (m : Multiverse) (w : py_state) : LoopState :=
  {| sim := set_t (t m + 1) m; new_universes := []; glob := w |}.

(** The loop of [step] from the state [s]. *)
Definition loop (s : LoopState) : LoopState :=
  foldl visit s (seq 0 (length (universes (sim s)))).

(** The end of [step]: the children join the population. *)
Definition leave (s : LoopState) : Multiverse * py_state :=
  (set_universes (universes (sim s) ++ new_universes s) (sim s), glob s).

(** A ledger entry of a refusal by the closed policy. *)
Definition closed_entry (r : LedgerEntry) : Prop :=
  le_allowed r = false /\ le_reason r = "policy_closed".

(** Closed policy: nothing was exported and the ledger holds refusals only. *)
Definition closed_inv (m : Multiverse) : Prop :=
  allows_export (policy (ethics m)) = false
  /\ exported_total m = 0.0
  /\ Forall closed_entry (ledger (ethics m)).

(** The factor applied to an allowed proposal. *)
Definition export_factor (e : EthicsEngine) : Q :=
  scale (policy e) * strictness (cfg e).

(** A bubble whose inflation rate and invariants are not negative. *)
Definition nonneg (u : Bubble) : Prop :=
  0 <= inflation_rate u /\ 0 <= invariants u.

(** All bubbles of a loop state, the children of the tick included, are
    [nonneg], and the export factor is at most 1. *)
Definition nonneg_state (s : LoopState) : Prop :=
  export_factor (ethics (sim s)) <= 1
  /\ Forall nonneg (universes (sim s))
  /\ Forall nonneg (new_universes s).

Definition nonneg_sim (m : Multiverse) : Prop :=
  export_factor (ethics m) <= 1 /\ Forall nonneg (universes m).

(** The count that the cap is compared with: the population and the
    children spawned so far in the tick. *)
Definition population (s : LoopState) : nat :=
  length (universes (sim s)) + length (new_universes s).

(** The ids of a list of bubbles are their positions. *)
Definition ids_ok (us : list Bubble) : Prop :=
  id <$> us = seq 0 (length us).

(** The stable flags of a population, position by position. *)
Definition stable_flags (us : list Bubble) : list bool := stable <$> us.

(** The loop state [s] with the [random] module in state [w] instead. *)
Definition reglob (w : py_state) (s : LoopState) : LoopState :=
  {| sim := sim s; new_universes := new_universes s; glob := w |}.

(** Every bubble of the list has made up its mind. *)
Definition decided (us : list Bubble) : Prop :=
  Forall (fun u => is_Some (consent u)) us.


(** With inherited consent and every bubble decided, the loop never draws
    from the [random] module. *)
Definition inheriting (s : LoopState) : Prop :=
  inherit_consent (cfg (ethics (sim s))) = true
  /\ decided (universes (sim s)) /\ decided (new_universes s).

(** ** Vocabulary of the further properties *)

(** The bubble at position [i] exists and is stable. *)
Definition alive (i : nat) (s : LoopState) : Prop :=
  exists u, universes (sim s) !! i = Some u /\ stable u = true.

(** The sum of the amounts recorded in a ledger. *)
Definition ledger_total (l : list LedgerEntry) : Q := Qsum (le_amount <$> l).


(** The number of ledger entries of one event type. *)
Definition count_type (ty : string) (l : list LedgerEntry) : nat :=
  length (filter (fun r => le_type r = ty) l).

(** The number of collapsed bubbles. *)
Definition dead_count (us : list Bubble) : nat :=
  length (filter (fun u => stable u = false) us).

(** A collapsed bubble holds no invariants. *)
Definition spent (u : Bubble) : Prop :=
  stable u = false -> invariants u = 0.0.

(** What a bubble keeps for life: its id, its parent and its consent. *)
Definition kin (u : Bubble) : nat * option nat * option bool :=
  (id u, parent_id u, consent u).

(** A well-formed genealogy, on the [kin] of a population with [n0]
    founders: ids are positions, consents are decided, founders have no
    parent, and every other bubble names an older bubble as its parent,
    whose consent it shares when [inh] is set. *)
Definition lineage (n0 : nat) (inh : bool)
    (K : list (nat * option nat * option bool)) : Prop :=
  forall (i : nat) (k : nat * option nat * option bool),
    K !! i = Some k ->
    k.1.1 = i /\ is_Some k.2
    /\ ((i < n0)%nat -> k.1.2 = None)
    /\ ((n0 <= i)%nat ->
        exists p kp, k.1.2 = Some p /\ (p < i)%nat /\ K !! p = Some kp
                     /\ (inh = true -> k.2 = kp.2)).

(** A ledger entry of a refusal for want of consent. *)
Definition unconsented_entry (r : LedgerEntry) : Prop :=
  le_allowed r = false /\ le_reason r = "no_consent"
  /\ le_src_consents r = false.

(** Every bubble of the list withholds its consent. *)
Definition withheld (us : list Bubble) : Prop :=
  Forall (fun u => consent u = Some false) us.

(** Consensual policy with no consent anywhere: nothing was exported and
    the ledger holds refusals for want of consent only. *)
Definition unconsenting (s : LoopState) : Prop :=
  mode (policy (ethics (sim s))) = "consensual"
  /\ consent_prob (cfg (ethics (sim s))) <= 0
  /\ withheld (universes (sim s)) /\ withheld (new_universes s)
  /\ exported_total (sim s) = 0.0
  /\ Forall unconsented_entry (ledger (ethics (sim s))).

(** A ledger entry of the open policy with strictness [st]. *)
Definition open_entry (st : Q) (r : LedgerEntry) : Prop :=
  le_allowed r = true /\ le_reason r = "ok"
  /\ le_amount r = pymax 0.0 (le_proposed r * (1.0 * st)).

(** Some bubble of the genealogy [K] has the id [x]. *)
Definition known (K : list (nat * option nat * option bool)) (x : nat)
    : Prop :=
  exists j k, K !! j = Some k /\ k.1.1 = x.

(** A ledger entry that fits the object it belongs to: written at a step
    between 1 and [tnow] under the policy [md], with an amount that is not
    negative, by a source that is a bubble of the genealogy [K]; a birth
    names a destination whose parent is the source, a collapse names no
    destination and records the destination consent as granted. *)
Definition entry_wf (tnow : nat) (md : string)
    (K : list (nat * option nat * option bool)) (r : LedgerEntry) : Prop :=
  (1 <= le_t r <= tnow)%nat
  /\ le_policy r = md
  /\ 0 <= le_amount r
  /\ exists src, le_src r = Some src /\ known K src
       /\ ((le_type r = "birth"
            /\ exists d j k, le_dst r = Some d /\ K !! j = Some k
                 /\ k.1.1 = d /\ k.1.2 = Some src)
           \/ (le_type r = "collapse" /\ le_dst r = None
               /\ le_dst_consents r = true)).

End Program.

(** Destructs the draws and tests of the operation in the goal. *)
Ltac open_op :=
  unfold drift, produce, tunnel, collapse, at_bubble, with_sim, put_bubble;
  repeat case_match; simplify_eq; simpl in *.

(** ** A concrete runtime, for running the model

    Nothing is proved about the real generators.  To evaluate the program on
    examples, [demo_runtime] supplies small stand-ins: a linear congruential
    generator modulo 16 for both random sources ([rng.random()] and
    [random.random()] return [x/16], at least 0 and below 1), a normal draw
    that is [loc + scale * (x/16 - 1/2)] and so equals [loc] when [scale]
    is 0, and a first-order stand-in for [math.exp]. *)

Module Demo.

Definition lcg_seed (seed : option Z) : Z :=
  match seed with
  | Some z => (z mod 16)%Z
  | None => 0%Z
  end.

Definition lcg_next (x : Z) : Z := ((5 * x + 3) mod 16)%Z.

Definition lcg_uniform (x : Z) : Q * Z := ((x mod 16)%Z # 16, lcg_next x).

Definition lcg_normal (loc sc : Q) (x : Z) : Q * Z :=
  (loc + sc * (((x mod 16)%Z # 16) - (1 # 2)), lcg_next x).

#[export] Instance demo_runtime : Runtime := {|
  np_state := Z;
  py_state := Z;
  np_default_rng := lcg_seed;
  np_normal := lcg_normal;
  np_random := lcg_uniform;
  py_seed := lcg_seed;
  py_random := lcg_uniform;
  math_exp := fun x => pymax 0 (1 + x)
|}.

Definition demo_cfg (inherit : bool) (strict : Q) : EthicsConfig :=
  {| consent_prob := 0.85; inherit_consent := inherit; strictness := strict |}.

(** The defaults of [Multiverse.__init__], for the given founder count,
    seed, policy, ethics configuration, tunnel rate and cap. *)
Definition demo_args (n : Z) (seed : Z) (pol : string) (c : EthicsConfig)
    (tunnel : Q) (cap : Z) : MultiverseArgs :=
  {| a_n_initial := n;
     a_seed := Some seed;
     a_policy := pol;
     a_ethics_cfg := c;
     a_drift_sigma := 0.05;
     a_tunnel_rate := tunnel;
     a_decay_rate := 0.01;
     a_decay_inflection := 1.2;
     a_decay_slope := 2.0;
     a_birth_export_mean := 0.2;
     a_birth_export_sigma := 0.08;
     a_collapse_export_frac := 0.2;
     a_max_bubbles := cap;
     a_inf_mean := 1.2;
     a_inf_sigma := 0.1 |}.

(** A closed multiverse of two founders in which every bubble tunnels at
    every step. *)
Definition closed_args : MultiverseArgs :=
  demo_args 2 0 "closed" (demo_cfg false 1.0) 1.0 20000.

(** An open multiverse of one founder with the given strictness, in which
    normal draws are exact (every sigma is 0), every bubble tunnels at
    every step and none collapses (the decay rate is 0): the founder has
    inflation rate 1.2, holds 0.05 + 0.15 * 1.2 = 0.23 after its first
    production, and a birth export of 0.2 is proposed. *)
Definition eager_args (strict : Q) : MultiverseArgs :=
  {| a_n_initial := 1;
     a_seed := Some 0%Z;
     a_policy := "open";
     a_ethics_cfg := demo_cfg true strict;
     a_drift_sigma := 0.0;
     a_tunnel_rate := 1.0;
     a_decay_rate := 0.0;
     a_decay_inflection := 1.2;
     a_decay_slope := 2.0;
     a_birth_export_mean := 0.2;
     a_birth_export_sigma := 0.0;
     a_collapse_export_frac := 0.2;
     a_max_bubbles := 20000;
     a_inf_mean := 1.2;
     a_inf_sigma := 0.0 |}.





(** The consensual policy with consent probability 0.0. *)
Definition unwilling_args : MultiverseArgs :=
  demo_args 2 3 "consensual"
    {| consent_prob := 0.0; inherit_consent := false; strictness := 1.0 |}
    1.0 20000.


(** Two founders that never tunnel (tunnel rate 0.0). *)
Definition barren_args : MultiverseArgs :=
  demo_args 2 0 "open" (demo_cfg true 1.0) 0.0 20000.


(** Two founders, every bubble tunneling at every step: in the demo runtime
    the first founder collapses in the second step. *)
Definition lively_args : MultiverseArgs :=
  demo_args 2 0 "open" (demo_cfg false 1.0) 1.0 20000.

(** A collapsed bubble and a stable one. *)
Definition dead_bubble : Bubble :=
  {| id := 0; inflation_rate := 1.3; invariants := 0.0; stable := false;
     parent_id := None; consent := Some true |}.

Definition live_bubble : Bubble :=
  {| id := 1; inflation_rate := 1.1; invariants := 0.4; stable := true;
     parent_id := Some 0%nat; consent := Some true |}.

(** An object with the default parameters, the open policy and the given
    population, as it could stand after four steps. *)
Definition demo_sim (us : list Bubble) : @Multiverse demo_runtime :=
  {| rng := 7%Z;
     ethics := {| policy := {| mode := "open" |};
                  cfg := demo_cfg true 1.0;
                  ledger := [] |};
     dyn := {| drift_sigma := 0.05; tunnel_rate := 0.05; decay_rate := 0.01;
               decay_inflection := 1.2; decay_slope := 2.0;
               birth_export_mean := 0.2; birth_export_sigma := 0.08;
               collapse_export_frac := 0.2; max_bubbles := 20000 |};
     universes := us;
     t := 4;
     exported_total := 0.0 |}.

End Demo.

(** ** Vocabulary of the statements *)

(** The calls of [check_and_record] that are refused: the policy allows no
    export, or it is consensual and the source does not consent, or a
    destination is given and does not consent. *)
Definition denied (e : EthicsEngine) (dst_id : option nat)
    (src_consents dst_consents : bool) : Prop :=
  allows_export (policy e) = false \/
  (mode (policy e) = "consensual" /\
   (src_consents = false \/ (is_Some dst_id /\ dst_consents = false))).

(** The calls that pass the policy and the consent check. *)
Definition granted (e : EthicsEngine) (dst_id : option nat)
    (src_consents dst_consents : bool) : Prop :=
  mode (policy e) = "open" \/
  (mode (policy e) = "consensual" /\ src_consents = true /\
   (is_Some dst_id -> dst_consents = true)).

Definition engine (m : string) (c : EthicsConfig) : EthicsEngine :=
  {| policy := {| mode := m |}; cfg := c; ledger := [] |}.

(** * Properties *)

(** ** Comparisons, [max] and [min] *)

Lemma Qltb_lt (a b : Q) : Qltb a b = true <-> a < b.
Proof.
  unfold Qltb. rewrite negb_true_iff, <- not_true_iff_false, Qle_bool_iff.
  split; [apply Qnot_le_lt | apply Qlt_not_le].
Qed.

Lemma Qltb_ge (a b : Q) : Qltb a b = false <-> b <= a.
Proof.
  unfold Qltb. rewrite negb_false_iff. apply Qle_bool_iff.
Qed.

Lemma pymax_cases (a b : Q) :
  (a < b /\ pymax a b = b) \/ (b <= a /\ pymax a b = a).
Proof.
  unfold pymax. destruct (Qltb a b) eqn:E.
  - left. split; [by apply Qltb_lt | done].
  - right. split; [by apply Qltb_ge | done].
Qed.

Lemma pymin_cases (a b : Q) :
  (b < a /\ pymin a b = b) \/ (a <= b /\ pymin a b = a).
Proof.
  unfold pymin. destruct (Qltb b a) eqn:E.
  - left. split; [by apply Qltb_lt | done].
  - right. split; [by apply Qltb_ge | done].
Qed.

Lemma pymax_floor (x : Q) : 0 <= pymax 0.0 x.
Proof. destruct (pymax_cases 0.0 x) as [[H ->]|[_ ->]]; lra. Qed.

(** A product that is not positive is floored to the literal [0.0]. *)
Lemma pymax_floor_nonpos (x : Q) : x <= 0 -> pymax 0.0 x = 0.0.
Proof.
  intros H. destruct (pymax_cases 0.0 x) as [[H' _]|[_ ->]]; [lra | done].
Qed.

(** ** The policy *)


Lemma allows_export_mode (p : SovereigntyPolicy) :
  allows_export p = true <-> mode p = "consensual" \/ mode p = "open".
Proof.
  unfold allows_export. rewrite bool_decide_eq_true, !elem_of_cons, elem_of_nil.
  tauto.
Qed.

(** ** The ethics engine *)

Lemma denied_result (e : EthicsEngine) (dst : option nat) (sc dc : bool) :
  denied e dst sc dc ->
  (allows_export (policy e) = false) \/
  (allows_export (policy e) = true /\ mode (policy e) = "consensual" /\
   sc && match dst with Some _ => dc | None => true end = false).
Proof.
  intros [H|(Hm & H)]; [by left|right].
  split; [apply allows_export_mode; by left|]. split; [done|].
  destruct H as [->|([x ->] & ->)]; [done|by rewrite andb_false_r].
Qed.

(** C1, as amended: a refused call of [check_and_record] returns
    [allowed = False] and the reason of the refusal ([policy_closed] when
    the policy allows no export, [no_consent] otherwise); the amount it
    returns is the proposed amount floored at 0, which is 0 only for
    proposals that are not positive; the amount written to the ledger entry
    it appends is 0. *)
Theorem check_and_record_denied (e : EthicsEngine) (t : nat) (ev : string)
    (src dst : option nat) (p : Q) (sc dc : bool) :
  denied e dst sc dc ->
  let r := check_and_record e t ev src dst p sc dc in
  r.1 = (false, pymax 0.0 p,
         if allows_export (policy e) then "no_consent" else "policy_closed")
  /\ (r.1.1.2 == 0 <-> p <= 0)
  /\ exists entry, ledger r.2 = ledger e ++ [entry]
       /\ le_allowed entry = false /\ le_amount entry = 0.0
       /\ le_reason entry = r.1.2.
Proof.
  intros H. apply denied_result in H. unfold check_and_record.
  assert (Hz : pymax 0.0 p == 0 <-> p <= 0).
  { destruct (pymax_cases 0.0 p) as [[H' ->]|[H' ->]]; split; lra. }
  destruct H as [->|(-> & Hm & ->)]; simpl.
  - split; [done|]. split; [done|]. eexists. by repeat split.
  - rewrite decide_True by done. simpl.
    split; [done|]. split; [done|]. eexists. by repeat split.
Qed.

Lemma check_and_record_denied_witness :
  denied (engine "closed" (Demo.demo_cfg true 1.0)) (Some 1%nat) true true /\
  (check_and_record (engine "closed" (Demo.demo_cfg true 1.0)) 1 "birth"
     (Some 0%nat) (Some 1%nat) (-(1#2)) true true).1
  = (false, 0.0, "policy_closed").
Proof.
  split; [by left|].
  apply (check_and_record_denied (engine "closed" (Demo.demo_cfg true 1.0))
           1 "birth" (Some 0%nat) (Some 1%nat) (-(1#2)) true true).
  by left.
Defined.

(** C1 as stated fails: under the closed policy a proposal of 1.0 is
    refused, and the amount returned is 1.0, not 0. *)
Lemma denied_amount_returned_counterexample :
  let e := engine "closed" (Demo.demo_cfg true 1.0) in
  let r := check_and_record e 1 "birth" (Some 0%nat) (Some 1%nat) 1.0
             true true in
  denied e (Some 1%nat) true true /\
  r.1 = (false, 1.0, "policy_closed") /\ ~ r.1.1.2 == 0.
Proof.
  split; [by left|]. split; [reflexivity|]. vm_compute. discriminate.
Qed.

(** C8: with strictness 0, a call that passes the policy and the consent
    check (policy open, or consensual with the source consenting and, when
    a destination is given, the destination consenting) returns
    [allowed = True] and the amount 0, whatever amount is proposed; the
    ledger entry records the same. *)
Theorem strictness_zero_no_transfer (e : EthicsEngine) (t : nat)
    (ev : string) (src dst : option nat) (p : Q) (sc dc : bool) :
  strictness (cfg e) == 0 ->
  granted e dst sc dc ->
  let r := check_and_record e t ev src dst p sc dc in
  r.1 = (true, 0.0, "ok")
  /\ exists entry, ledger r.2 = ledger e ++ [entry]
       /\ le_allowed entry = true /\ le_amount entry = 0.0
       /\ le_reason entry = "ok".
Proof.
  intros Hs Hg. unfold check_and_record.
  assert (Hz : pymax 0.0 (p * (scale (policy e) * strictness (cfg e))) = 0.0).
  { apply pymax_floor_nonpos. rewrite Hs. lra. }
  assert (Ha : allows_export (policy e) = true).
  { apply allows_export_mode. destruct Hg as [?|[? _]]; auto. }
  rewrite Ha. simpl.
  destruct Hg as [Hm|(Hm & -> & Hd)].
  - rewrite decide_False by (rewrite Hm; discriminate).
    rewrite Hz. split; [done|]. eexists. by repeat split.
  - rewrite decide_True by done.
    assert (Hdc : match dst with Some _ => dc | None => true end = true).
    { destruct dst; [apply Hd; by eexists|done]. }
    rewrite Hdc. simpl. rewrite Hz. split; [done|]. eexists. by repeat split.
Qed.

Lemma strictness_zero_no_transfer_witness :
  (check_and_record (engine "consensual" (Demo.demo_cfg true 0.0)) 3
     "birth" (Some 0%nat) (Some 1%nat) 7.5 true true).1 = (true, 0.0, "ok").
Proof.
  apply (strictness_zero_no_transfer
           (engine "consensual" (Demo.demo_cfg true 0.0)) 3 "birth"
           (Some 0%nat) (Some 1%nat) 7.5 true true).
  - reflexivity.
  - right. split; [reflexivity|]. split; [reflexivity|]. intros _. reflexivity.
Defined.

Section Properties.
Context {RT : Runtime}.

(** ** Construction of the policy *)




(** ** What [check_and_record] leaves alone *)

Lemma check_and_record_engine (e : EthicsEngine) (t : nat) (ev : string)
    (src dst : option nat) (p : Q) (sc dc : bool) :
  let r := check_and_record e t ev src dst p sc dc in
  policy r.2 = policy e /\ cfg r.2 = cfg e /\
  exists entry, ledger r.2 = ledger e ++ [entry]
    /\ le_allowed entry = r.1.1.1 /\ le_reason entry = r.1.2
    /\ le_dst entry = dst /\ le_dst_consents entry = dc.
Proof.
  unfold check_and_record.
  repeat case_match; simplify_eq; simpl; (do 2 (split; [done|]));
    eexists; by repeat split.
Qed.

(** An allowed amount is the proposal times [scale() * strictness], floored
    at 0. *)
Lemma check_and_record_allowed (e : EthicsEngine) (t : nat) (ev : string)
    (src dst : option nat) (p : Q) (sc dc : bool) :
  let r := check_and_record e t ev src dst p sc dc in
  r.1.1.1 = true ->
  r.1.1.2 = pymax 0.0 (p * (scale (policy e) * strictness (cfg e))).
Proof.
  unfold check_and_record. repeat case_match; simplify_eq; simpl; done.
Qed.

Lemma check_and_record_closed (e : EthicsEngine) (t : nat) (ev : string)
    (src dst : option nat) (p : Q) (sc dc : bool) :
  allows_export (policy e) = false ->
  let r := check_and_record e t ev src dst p sc dc in
  r.1.1.1 = false /\ r.1.2 = "policy_closed".
Proof.
  intros H. unfold check_and_record. rewrite H. simpl. done.
Qed.

(** ** The loop of [step] *)

Lemma visit_cases (s : LoopState) (i : nat) :
  visit s i = s \/
  (exists u, universes (sim s) !! i = Some u /\ stable u = true /\
     visit s i = collapse i (tunnel i (produce i (drift i s)))).
Proof.
  unfold visit, at_bubble. destruct (universes (sim s) !! i) as [u|]; [|by left].
  destruct (stable u) eqn:E; simpl; [right; by exists u|by left].
Qed.

(** A property of the loop state that the four operations keep is kept by
    the whole loop. *)
Lemma loop_invariant (I : LoopState -> Prop) :
  (forall i s, I s -> I (drift i s)) ->
  (forall i s, I s -> I (produce i s)) ->
  (forall i s, I s -> I (tunnel i s)) ->
  (forall i s, I s -> I (collapse i s)) ->
  forall (l : list nat) (s : LoopState), I s -> I (foldl visit s l).
Proof.
  intros Hd Hp Ht Hc l. induction l as [|i l IH]; intros s Hs; [done|].
  simpl. apply IH.
  destruct (visit_cases s i) as [->|(u & _ & _ & ->)]; auto.
Qed.

Lemma step_unfold (m : Multiverse) (w : py_state) :
  step m w = leave (loop (enter m w)).
Proof. reflexivity. Qed.

Lemma frame_refl (s : LoopState) : frame s s.
Proof. by repeat split. Qed.

Lemma frame_trans (s1 s2 s3 : LoopState) :
  frame s1 s2 -> frame s2 s3 -> frame s1 s3.
Proof.
  unfold frame. intros (?&?&?&?&?) (?&?&?&?&?).
  repeat split; congruence.
Qed.

Lemma frame_drift (i : nat) (s : LoopState) : frame s (drift i s).
Proof.
  unfold frame. open_op; rewrite ?length_insert; by repeat split.
Qed.

Lemma frame_produce (i : nat) (s : LoopState) : frame s (produce i s).
Proof.
  unfold frame. open_op; rewrite ?length_insert; by repeat split.
Qed.

Lemma frame_tunnel (i : nat) (s : LoopState) : frame s (tunnel i s).
Proof.
  unfold frame. open_op; rewrite ?length_insert; repeat split; try done;
    match goal with
    | H : check_and_record ?e ?t ?ev ?a ?b ?p ?c ?d = _ |- _ =>
        pose proof (check_and_record_engine e t ev a b p c d) as He;
        rewrite H in He; simpl in He; tauto
    end.
Qed.

Lemma frame_collapse (i : nat) (s : LoopState) : frame s (collapse i s).
Proof.
  unfold frame. open_op; rewrite ?length_insert; repeat split; try done;
    match goal with
    | H : check_and_record ?e ?t ?ev ?a ?b ?p ?c ?d = _ |- _ =>
        pose proof (check_and_record_engine e t ev a b p c d) as He;
        rewrite H in He; simpl in He; tauto
    end.
Qed.

Lemma frame_loop (l : list nat) (s : LoopState) : frame s (foldl visit s l).
Proof.
  apply (loop_invariant (frame s)); eauto using frame_refl, frame_trans,
    frame_drift, frame_produce, frame_tunnel, frame_collapse.
Qed.

(** ** Construction and runs *)

Lemma Multiverse_init_ok (a : MultiverseArgs) (w0 : py_state)
    (m0 : Multiverse) (w1 : py_state) :
  Multiverse_init a w0 = (Ok m0, w1) ->
  a_policy a ∈ ["closed"; "consensual"; "open"]
  /\ ethics m0 = engine (a_policy a) (a_ethics_cfg a)
  /\ max_bubbles (dyn m0) = a_max_bubbles a
  /\ decay_rate (dyn m0) = a_decay_rate a
  /\ t m0 = O
  /\ exported_total m0 = 0.0
  /\ (rng m0, w1, universes m0)
     = founders (Z.to_nat (a_n_initial a)) (a_inf_mean a) (a_inf_sigma a)
         (engine (a_policy a) (a_ethics_cfg a))
         (np_default_rng (a_seed a)) (py_seed (a_seed a)) [].
Proof.
  unfold Multiverse_init, SovereigntyPolicy_init, engine.
  case_decide; [|discriminate].
  destruct (founders _ _ _ _ _ _ _) as [[g' w'] us] eqn:E.
  intros [= <- <-]. simpl. by repeat split.
Qed.

Lemma steps_S (n : nat) (m : Multiverse) (w : py_state) :
  steps (S n) m w = steps n (step m w).1 (step m w).2.
Proof. cbn [steps]. by destruct (step m w). Qed.

Lemma steps_invariant (P : Multiverse -> Prop) :
  (forall m w, P m -> P (step m w).1) ->
  forall (n : nat) (m : Multiverse) (w : py_state),
    P m -> P (steps n m w).1.
Proof.
  intros Hstep n. induction n as [|n IH]; intros m w Hm; [done|].
  rewrite steps_S. apply IH, Hstep, Hm.
Qed.

(** ** Closed policy *)

Lemma closed_inv_step (m : Multiverse) (w : py_state) :
  closed_inv m -> closed_inv (step m w).1.
Proof.
  intros Hm. rewrite step_unfold.
  assert (Hl : closed_inv (sim (loop (enter m w)))); [|exact Hl].
  unfold loop.
  apply (loop_invariant (fun s => closed_inv (sim s))); [..|exact Hm];
    intros i s Hs; pose proof Hs as (Ha & Hx & Hl); unfold closed_inv.
  - open_op; done.
  - open_op; done.
  - open_op; try done; try done;
      match goal with
      | H : check_and_record ?e ?t ?ev ?a ?b ?p ?c ?d = _ |- _ =>
          pose proof (check_and_record_engine e t ev a b p c d) as He;
          pose proof (check_and_record_closed e t ev a b p c d Ha) as Hc;
          rewrite H in He, Hc; simpl in He, Hc;
          destruct He as (Hp & _ & entry & Hle & Hal & Hre & _);
          destruct Hc as [-> ->]
      end; simpl in *; try discriminate;
      (rewrite Hp, Hle; split; [done|]; split; [done|];
       apply Forall_app; split; [done|]; by apply Forall_singleton).
  - open_op; try done;
      match goal with
      | H : check_and_record ?e ?t ?ev ?a ?b ?p ?c ?d = _ |- _ =>
          pose proof (check_and_record_engine e t ev a b p c d) as He;
          pose proof (check_and_record_closed e t ev a b p c d Ha) as Hc;
          rewrite H in He, Hc; simpl in He, Hc;
          destruct He as (Hp & _ & entry & Hle & Hal & Hre & _);
          destruct Hc as [-> ->]
      end; simpl in *; try discriminate;
      (rewrite Hp, Hle; split; [done|]; split; [done|];
       apply Forall_app; split; [done|]; by apply Forall_singleton).
Qed.

(** C2: under the closed policy, after any number of steps the cumulative
    exported total (the [Δℰ] of the metrics) is 0 and every entry of the
    ledger has [allowed = False] and the reason [policy_closed]. *)
Theorem closed_policy_invariant (a : MultiverseArgs) (w0 : py_state)
    (m0 : Multiverse) (w1 : py_state) :
  a_policy a = "closed" ->
  Multiverse_init a w0 = (Ok m0, w1) ->
  forall (n : nat) (w : py_state),
    exported_total (steps n m0 w).1 = 0.0
    /\ m_dE (metrics (steps n m0 w).1) == 0
    /\ Forall closed_entry (ledger (ethics (steps n m0 w).1)).
Proof.
  intros Hp Hi n w.
  apply Multiverse_init_ok in Hi as (_ & He & _ & _ & _ & Hx & _).
  assert (H : closed_inv (steps n m0 w).1).
  { apply (steps_invariant closed_inv); [apply closed_inv_step|].
    unfold closed_inv. rewrite He, Hp, Hx. repeat split. apply Forall_nil_2. }
  destruct H as (_ & Hx' & Hl). split; [done|]. split; [|done].
  unfold metrics. simpl. by rewrite Hx'.
Qed.

(** ** Resources are not negative *)

(** The amount taken from a parent never exceeds what it holds, when the
    export factor is at most 1. *)
Lemma birth_amount_bounded (p inv f : Q) :
  0 <= inv -> f <= 1 ->
  pymax 0.0 (pymin (pymax 0.0 p) inv * f) <= inv.
Proof.
  intros Hinv Hf.
  assert (Hq : 0 <= pymin (pymax 0.0 p) inv <= inv).
  { pose proof (pymax_floor p).
    destruct (pymin_cases (pymax 0.0 p) inv) as [[? ->]|[? ->]]; lra. }
  destruct (pymax_cases 0.0 (pymin (pymax 0.0 p) inv * f)) as [[_ ->]|[_ ->]];
    [|lra].
  set (q := pymin (pymax 0.0 p) inv) in *.
  assert (q * f <= q * 1); [|lra].
  rewrite (Qmult_comm q f), (Qmult_comm q 1).
  apply Qmult_le_compat_r; lra.
Qed.

Lemma founders_nonneg (n : nat) (im isg : Q) (e : EthicsEngine)
    (g : np_state) (w : py_state) (us : list Bubble) :
  Forall nonneg us -> Forall nonneg (founders n im isg e g w us).2.
Proof.
  revert g w us. induction n as [|n IH]; intros g w us Hus; [done|].
  simpl. destruct (np_normal im isg g) as [x g'].
  destruct (py_random w) as [r w']. apply IH.
  apply Forall_app. split; [done|]. apply Forall_singleton.
  split; simpl; [apply pymax_floor|lra].
Qed.

Lemma nonneg_drift (i : nat) (s : LoopState) :
  nonneg_state s -> nonneg_state (drift i s).
Proof.
  intros (Hf & Hu & Hn). unfold nonneg_state. open_op; try done.
  repeat split; try done. apply Forall_insert; [done|].
  eapply Forall_lookup_1 in Hu as [_ Hinv]; [|done].
  split; simpl; [apply pymax_floor|done].
Qed.

Lemma nonneg_produce (i : nat) (s : LoopState) :
  nonneg_state s -> nonneg_state (produce i s).
Proof.
  intros (Hf & Hu & Hn). unfold nonneg_state. open_op; try done.
  repeat split; try done. apply Forall_insert; [done|].
  eapply Forall_lookup_1 in Hu as [Hinf Hinv]; [|done].
  split; simpl; [done|]. nra.
Qed.

Lemma nonneg_tunnel (i : nat) (s : LoopState) :
  nonneg_state s -> nonneg_state (tunnel i s).
Proof.
  intros (Hf & Hu & Hn). unfold nonneg_state. open_op; try done;
    match goal with
    | H : check_and_record ?e ?t ?ev ?a ?b ?p ?c ?d = _ |- _ =>
        pose proof (check_and_record_engine e t ev a b p c d) as He;
        pose proof (check_and_record_allowed e t ev a b p c d) as Ha;
        rewrite H in He, Ha; simpl in He, Ha;
        destruct He as (Hp & Hc & _)
    end;
    match goal with
    | H : universes _ !! _ = Some _ |- _ =>
        pose proof (Forall_lookup_1 _ _ _ _ Hu H) as [Hinf Hinv]
    end;
    (split; [unfold export_factor in *; by rewrite Hp, Hc|]).
  all: try match goal with
       | H : _ && _ = true |- _ =>
           apply andb_prop in H as [-> _]; specialize (Ha eq_refl); subst
       end.
  all: split; [try apply Forall_insert; try done|
               apply Forall_app; split; [done|apply Forall_singleton]].
  all: split; simpl; try done; try apply pymax_floor; try lra.
  all: try (pose proof (birth_amount_bounded q1 (invariants b) _ Hinv Hf);
            unfold export_factor in *; lra).
  all: match goal with
       | |- 0 <= 0.0 + pymax 0.0 ?x => pose proof (pymax_floor x); lra
       end.
Qed.

Lemma nonneg_collapse (i : nat) (s : LoopState) :
  nonneg_state s -> nonneg_state (collapse i s).
Proof.
  intros (Hf & Hu & Hn). unfold nonneg_state. open_op; try done;
    match goal with
    | H : check_and_record ?e ?t ?ev ?a ?b ?p ?c ?d = _ |- _ =>
        pose proof (check_and_record_engine e t ev a b p c d) as He;
        rewrite H in He; simpl in He; destruct He as (Hp & Hc & _)
    end;
    match goal with
    | H : universes _ !! _ = Some _ |- _ =>
        pose proof (Forall_lookup_1 _ _ _ _ Hu H) as [Hinf Hinv]
    end;
    (split; [unfold export_factor in *; by rewrite Hp, Hc|]);
    (split; [|done]); (apply Forall_insert; [done|]);
    (split; simpl; [done|lra]).
Qed.

Lemma nonneg_step (m : Multiverse) (w : py_state) :
  nonneg_sim m -> nonneg_sim (step m w).1.
Proof.
  intros [Hf Hu]. rewrite step_unfold.
  assert (Hl : nonneg_state (loop (enter m w))).
  { unfold loop.
    apply (loop_invariant nonneg_state);
      auto using nonneg_drift, nonneg_produce, nonneg_tunnel, nonneg_collapse.
    by repeat split. }
  destruct Hl as (Hf' & Hu' & Hn'). split; [exact Hf'|].
  simpl. apply Forall_app. by split.
Qed.

(** C3, as amended: when the export factor [scale() * strictness] is at
    most 1 (so for every strictness up to 1, negative ones included), the
    invariants of every bubble are at least 0 after construction and after
    every step, and each of the four operations of a step (drift,
    production, tunneling, collapse) keeps them so, for the bubbles of the
    population and for the children of the tick. *)
Theorem resource_nonnegative (a : MultiverseArgs) (w0 : py_state)
    (m0 : Multiverse) (w1 : py_state) :
  export_factor (engine (a_policy a) (a_ethics_cfg a)) <= 1 ->
  Multiverse_init a w0 = (Ok m0, w1) ->
  (forall (n : nat) (w : py_state),
     Forall (fun u => 0 <= invariants u) (universes (steps n m0 w).1))
  /\ (forall (n : nat) (w w' : py_state) (i : nat) (s : LoopState),
        nonneg_state s ->
        nonneg_state (enter (steps n m0 w).1 w')
        /\ nonneg_state (drift i s) /\ nonneg_state (produce i s)
        /\ nonneg_state (tunnel i s) /\ nonneg_state (collapse i s)).
Proof.
  intros Hf Hi.
  apply Multiverse_init_ok in Hi as (_ & He & _ & _ & _ & _ & Hfo).
  assert (H0 : nonneg_sim m0).
  { split; [by rewrite He|].
    pose proof (founders_nonneg (Z.to_nat (a_n_initial a)) (a_inf_mean a)
                  (a_inf_sigma a) (engine (a_policy a) (a_ethics_cfg a))
                  (np_default_rng (a_seed a)) (py_seed (a_seed a)) []
                  (Forall_nil_2 _)) as H.
    by rewrite <- Hfo in H. }
  assert (Hn : forall n w, nonneg_sim (steps n m0 w).1).
  { intros n w. by apply (steps_invariant nonneg_sim); [apply nonneg_step|]. }
  split.
  - intros n w. destruct (Hn n w) as [_ H].
    eapply Forall_impl; [exact H|]. by intros u [_ Hu].
  - intros n w w' i s Hs. split.
    + destruct (Hn n w) as [H1 H2]. by repeat split.
    + auto using nonneg_drift, nonneg_produce, nonneg_tunnel, nonneg_collapse.
Qed.

(** ** The population cap *)

Lemma tunnel_skipped (i : nat) (s : LoopState) :
  (max_bubbles (dyn (sim s)) <= Z.of_nat (population s))%Z ->
  tunnel i s = s.
Proof.
  intros H. unfold tunnel, at_bubble, population in *.
  destruct (universes (sim s) !! i); [|done].
  by rewrite (proj2 (Z.ltb_ge _ _) H).
Qed.

Lemma tunnel_population (i : nat) (s : LoopState) :
  population (tunnel i s) = population s
  \/ ((Z.of_nat (population s) < max_bubbles (dyn (sim s)))%Z
      /\ population (tunnel i s) = S (population s)).
Proof.
  unfold population. open_op; rewrite ?length_insert, ?length_app; simpl;
    try (by left); right; (split; [by apply Z.ltb_lt|lia]).
Qed.

Lemma population_other (i : nat) (s : LoopState) :
  population (drift i s) = population s
  /\ population (produce i s) = population s
  /\ population (collapse i s) = population s.
Proof.
  unfold population. repeat split; open_op; by rewrite ?length_insert.
Qed.

Lemma capped_loop (b : Z) (l : list nat) (s : LoopState) :
  (max_bubbles (dyn (sim s)) <= b)%Z ->
  (Z.of_nat (population s) <= b)%Z ->
  (Z.of_nat (population (foldl visit s l)) <= b)%Z.
Proof.
  intros Hk Hs.
  assert (H : (max_bubbles (dyn (sim (foldl visit s l))) <= b)%Z
              /\ (Z.of_nat (population (foldl visit s l)) <= b)%Z);
    [|by destruct H].
  apply (loop_invariant
           (fun s => (max_bubbles (dyn (sim s)) <= b)%Z
                     /\ (Z.of_nat (population s) <= b)%Z)); [..|done];
    clear; intros i s [Hk Hs].
  - destruct (frame_drift i s) as [-> _].
    destruct (population_other i s) as (-> & _). done.
  - destruct (frame_produce i s) as [-> _].
    destruct (population_other i s) as (_ & -> & _). done.
  - destruct (frame_tunnel i s) as [-> _].
    destruct (tunnel_population i s) as [->|[Hlt ->]]; [done|]. lia.
  - destruct (frame_collapse i s) as [-> _].
    destruct (population_other i s) as (_ & _ & ->). done.
Qed.

Lemma step_population (m : Multiverse) (w : py_state) :
  dyn (step m w).1 = dyn m
  /\ (length (universes m) <= length (universes (step m w).1))%nat
  /\ (Z.of_nat (length (universes (step m w).1))
      <= Z.max (Z.of_nat (length (universes m))) (max_bubbles (dyn m)))%Z.
Proof.
  rewrite step_unfold. unfold loop.
  set (s := enter m w). set (l := seq 0 (length (universes (sim s)))).
  destruct (frame_loop l s) as (Hd & _ & _ & _ & Hlen).
  pose proof (capped_loop
                (Z.max (Z.of_nat (length (universes m))) (max_bubbles (dyn m)))
                l s) as Hc.
  unfold population in Hc. simpl in *. rewrite length_app.
  split; [done|]. split; [lia|]. rewrite Nat.add_0_r in Hc. apply Hc; lia.
Qed.

(** C4: a reproduction is attempted only while the population together
    with the children already spawned in the tick is below the cap; once
    that count has reached the cap the attempt is skipped, the state being
    left as it is (no trial drawn, no child queued).  So an attempt brings
    the count to the cap at most, no other operation changes it, and the
    population after a step never exceeds the larger of the cap and the
    population before it. *)
Theorem population_cap_respected (i : nat) (s : LoopState) (m : Multiverse)
    (w : py_state) (n : nat) :
  ((max_bubbles (dyn (sim s)) <= Z.of_nat (population s))%Z ->
   tunnel i s = s)
  /\ (tunnel i s <> s ->
      (Z.of_nat (population s) < max_bubbles (dyn (sim s)))%Z
      /\ (Z.of_nat (population (tunnel i s)) <= max_bubbles (dyn (sim s)))%Z)
  /\ population (drift i s) = population s
  /\ population (produce i s) = population s
  /\ population (collapse i s) = population s
  /\ (Z.of_nat (length (universes (step m w).1))
      <= Z.max (Z.of_nat (length (universes m))) (max_bubbles (dyn m)))%Z
  /\ (Z.of_nat (length (universes (steps n m w).1))
      <= Z.max (Z.of_nat (length (universes m))) (max_bubbles (dyn m)))%Z.
Proof.
  split; [apply tunnel_skipped|]. split.
  { intros Hne.
    destruct (Z.lt_ge_cases (Z.of_nat (population s))
                (max_bubbles (dyn (sim s)))) as [Hlt|Hge].
    - split; [done|].
      destruct (tunnel_population i s) as [->|[_ ->]]; lia.
    - by apply tunnel_skipped with (i := i) in Hge. }
  destruct (population_other i s) as (Hd & Hp & Hc).
  do 3 (split; [done|]). split; [apply step_population|].
  revert m w. induction n as [|n IH]; intros m w; [simpl; lia|].
  rewrite steps_S. specialize (IH (step m w).1 (step m w).2).
  destruct (step_population m w) as (Hdy & _ & Hle).
  rewrite Hdy in IH. lia.
Qed.

(** ** Ids *)

Lemma ids_ok_snoc (us : list Bubble) (u : Bubble) :
  ids_ok us -> id u = length us -> ids_ok (us ++ [u]).
Proof.
  unfold ids_ok. intros H Hu.
  rewrite fmap_app, length_app, seq_app, H. simpl. by rewrite Hu.
Qed.

Lemma ids_ok_insert (us : list Bubble) (i : nat) (u u' : Bubble) :
  us !! i = Some u -> id u' = id u -> ids_ok us -> ids_ok (<[i := u']> us).
Proof.
  unfold ids_ok. intros Hi Hid H.
  rewrite list_fmap_insert, length_insert, Hid.
  rewrite list_insert_id; [done|]. by rewrite list_lookup_fmap, Hi.
Qed.

Lemma ids_ok_insert_app (us new : list Bubble) (i : nat) (u u' : Bubble) :
  us !! i = Some u -> id u' = id u ->
  ids_ok (us ++ new) -> ids_ok (<[i := u']> us ++ new).
Proof.
  intros Hi Hid H. rewrite <- insert_app_l by (by eapply lookup_lt_Some).
  eapply ids_ok_insert; [|done..]. by apply lookup_app_l_Some.
Qed.

Lemma founders_ids (n : nat) (im isg : Q) (e : EthicsEngine)
    (g : np_state) (w : py_state) (us : list Bubble) :
  ids_ok us ->
  ids_ok (founders n im isg e g w us).2
  /\ length (founders n im isg e g w us).2 = (length us + n)%nat.
Proof.
  revert g w us. induction n as [|n IH]; intros g w us Hus.
  { simpl. split; [done|lia]. }
  simpl. destruct (np_normal im isg g) as [x g'].
  destruct (py_random w) as [r w'].
  edestruct IH as [H1 H2]; [|split; [exact H1|]].
  - by apply ids_ok_snoc.
  - rewrite H2, length_app. simpl. lia.
Qed.

Lemma ids_loop (l : list nat) (s : LoopState) :
  ids_ok (universes (sim s) ++ new_universes s) ->
  ids_ok (universes (sim (foldl visit s l))
            ++ new_universes (foldl visit s l)).
Proof.
  apply (loop_invariant
           (fun s => ids_ok (universes (sim s) ++ new_universes s)));
    clear; intros i s H.
  - open_op; try done. by eapply ids_ok_insert_app.
  - open_op; try done. by eapply ids_ok_insert_app.
  - open_op; try done; rewrite app_assoc; apply ids_ok_snoc;
      try (by eapply ids_ok_insert_app);
      by rewrite ?length_app, ?length_insert.
  - open_op; try done; by eapply ids_ok_insert_app.
Qed.

Lemma ids_step (m : Multiverse) (w : py_state) :
  ids_ok (universes m) -> ids_ok (universes (step m w).1).
Proof.
  intros H. rewrite step_unfold. apply ids_loop. simpl.
  by rewrite app_nil_r.
Qed.

Lemma steps_snoc (n : nat) (m : Multiverse) (w : py_state) :
  steps (S n) m w = step (steps n m w).1 (steps n m w).2.
Proof.
  revert m w. induction n as [|n IH]; intros m w.
  - cbn [steps fst snd]. by destruct (step m w).
  - by rewrite (steps_S (S n)), IH, <- (steps_S n m w).
Qed.

(** C5: after construction and after every step, the ids of the bubbles of
    the population, founders first and children in the order in which they
    were spawned, are 0, 1, 2, ... without gap or repeat, the collapsed
    bubbles included; a step keeps the bubbles it finds in their places and
    appends the children after them, and within a step the ids of the
    population followed by the children spawned so far are 0, 1, 2, ...
    as well. *)
Theorem id_sequence (a : MultiverseArgs) (w0 : py_state)
    (m0 : Multiverse) (w1 : py_state) :
  Multiverse_init a w0 = (Ok m0, w1) ->
  forall (n : nat) (w : py_state),
    id <$> universes (steps n m0 w).1
      = seq 0 (length (universes (steps n m0 w).1))
    /\ id <$> universes (steps n m0 w).1
         `prefix_of` id <$> universes (steps (S n) m0 w).1
    /\ (forall (w' : py_state) (l : list nat),
          let s := foldl visit (enter (steps n m0 w).1 w') l in
          id <$> (universes (sim s) ++ new_universes s)
          = seq 0 (length (universes (sim s) ++ new_universes s))).
Proof.
  intros Hi.
  apply Multiverse_init_ok in Hi as (_ & _ & _ & _ & _ & _ & Hfo).
  assert (H0 : ids_ok (universes m0)).
  { pose proof (founders_ids (Z.to_nat (a_n_initial a)) (a_inf_mean a)
                  (a_inf_sigma a) (engine (a_policy a) (a_ethics_cfg a))
                  (np_default_rng (a_seed a)) (py_seed (a_seed a)) []
                  eq_refl) as [H _].
    by rewrite <- Hfo in H. }
  assert (Hn : forall n w, ids_ok (universes (steps n m0 w).1)).
  { intros n w. by apply (steps_invariant (fun m => ids_ok (universes m)));
      [apply ids_step|]. }
  intros n w. split; [apply Hn|]. split.
  - rewrite (Hn n w), (Hn (S n) w), steps_snoc.
    destruct (step_population (steps n m0 w).1 (steps n m0 w).2)
      as (_ & Hle & _).
    exists (seq (length (universes (steps n m0 w).1))
              (length (universes (step (steps n m0 w).1 (steps n m0 w).2).1)
               - length (universes (steps n m0 w).1))).
    rewrite <- seq_app. f_equal. lia.
  - intros w' l s. apply ids_loop. simpl. rewrite app_nil_r. apply Hn.
Qed.

(** ** More founders than the cap *)



(** ** No decay, no collapse *)


Lemma stable_flags_insert (us : list Bubble) (i : nat) (u u' : Bubble) :
  us !! i = Some u -> stable u' = stable u ->
  stable_flags (<[i := u']> us) = stable_flags us.
Proof.
  unfold stable_flags. intros Hi Hs. rewrite list_fmap_insert, Hs.
  apply list_insert_id. by rewrite list_lookup_fmap, Hi.
Qed.


Section NoDecay.
Hypothesis random_nonneg : forall g : np_state, 0 <= (np_random g).1.




End NoDecay.


(** ** Determinism *)

Lemma founders_decided (n : nat) (im isg : Q) (e : EthicsEngine)
    (g : np_state) (w : py_state) (us : list Bubble) :
  decided us -> decided (founders n im isg e g w us).2.
Proof.
  revert g w us. induction n as [|n IH]; intros g w us Hus; [done|].
  simpl. destruct (np_normal im isg g) as [x g'].
  destruct (py_random w) as [r w']. apply IH.
  apply Forall_app. split; [done|]. apply Forall_singleton. by eexists.
Qed.

Lemma decided_insert (us : list Bubble) (i : nat) (u u' : Bubble) :
  us !! i = Some u -> consent u' = consent u ->
  decided us -> decided (<[i := u']> us).
Proof.
  intros Hi Hc H. apply Forall_insert; [done|]. rewrite Hc.
  by eapply (Forall_lookup_1 _ _ _ _ H).
Qed.

Lemma inheriting_drift (w : py_state) (i : nat) (s : LoopState) :
  inheriting s ->
  inheriting (drift i s) /\ drift i (reglob w s) = reglob w (drift i s).
Proof.
  intros (Hi & Hu & Hn).
  unfold inheriting, reglob, drift, at_bubble, with_sim, put_bubble. simpl.
  destruct (universes (sim s) !! i) as [u|] eqn:Hl; [|done].
  destruct (np_normal _ _ _) as [d g]. simpl.
  split; [|done]. split; [done|]. split; [|done]. by eapply decided_insert.
Qed.

Lemma inheriting_produce (w : py_state) (i : nat) (s : LoopState) :
  inheriting s ->
  inheriting (produce i s) /\ produce i (reglob w s) = reglob w (produce i s).
Proof.
  intros (Hi & Hu & Hn).
  unfold inheriting, reglob, produce, at_bubble, with_sim, put_bubble. simpl.
  destruct (universes (sim s) !! i) as [u|] eqn:Hl; [|done].
  split; [|done]. split; [done|]. split; [|done]. by eapply decided_insert.
Qed.

Lemma inheriting_tunnel (w : py_state) (i : nat) (s : LoopState) :
  inheriting s ->
  inheriting (tunnel i s) /\ tunnel i (reglob w s) = reglob w (tunnel i s).
Proof.
  intros (Hi & Hu & Hn). unfold inheriting, reglob, tunnel, at_bubble.
  simpl. destruct (universes (sim s) !! i) as [u|] eqn:Hl; [|done].
  destruct (Forall_lookup_1 _ _ _ _ Hu Hl) as [c Hc].
  rewrite Hi, Hc. simpl.
  repeat case_match; simplify_eq; simpl in *; try done;
    match goal with
    | H : check_and_record ?e ?t ?ev ?a ?b ?p ?c ?d = _ |- _ =>
        pose proof (check_and_record_engine e t ev a b p c d) as He;
        rewrite H in He; simpl in He; destruct He as (_ & -> & _)
    end;
    (split; [|done]); (split; [done|]);
    (split; [try (by eapply decided_insert); done|]);
    (apply Forall_app; split; [done|]; apply Forall_singleton; by eexists).
Qed.

Lemma inheriting_collapse (w : py_state) (i : nat) (s : LoopState) :
  inheriting s ->
  inheriting (collapse i s)
  /\ collapse i (reglob w s) = reglob w (collapse i s).
Proof.
  intros (Hi & Hu & Hn). unfold inheriting, reglob, collapse, at_bubble.
  simpl. destruct (universes (sim s) !! i) as [u|] eqn:Hl; [|done].
  destruct (Forall_lookup_1 _ _ _ _ Hu Hl) as [c Hc].
  rewrite Hc. simpl.
  repeat case_match; simplify_eq; simpl in *; try done;
    match goal with
    | H : check_and_record ?e ?t ?ev ?a ?b ?p ?c ?d = _ |- _ =>
        pose proof (check_and_record_engine e t ev a b p c d) as He;
        rewrite H in He; simpl in He; destruct He as (_ & -> & _)
    end;
    (split; [|done]); (split; [done|]); (split; [|done]);
    by eapply decided_insert.
Qed.

Lemma inheriting_loop (w : py_state) (l : list nat) (s : LoopState) :
  inheriting s ->
  inheriting (foldl visit s l)
  /\ foldl visit (reglob w s) l = reglob w (foldl visit s l).
Proof.
  revert s. induction l as [|i l IH]; intros s Hs; [done|]. simpl.
  assert (Hv : inheriting (visit s i)
               /\ visit (reglob w s) i = reglob w (visit s i)).
  { unfold visit, at_bubble. simpl.
    destruct (universes (sim s) !! i) as [u|]; [|done].
    destruct (stable u); simpl; [|done].
    destruct (inheriting_drift w i s Hs) as [H1 ->].
    destruct (inheriting_produce w i _ H1) as [H2 ->].
    destruct (inheriting_tunnel w i _ H2) as [H3 ->].
    by destruct (inheriting_collapse w i _ H3) as [H4 ->]. }
  destruct Hv as [Hv ->]. by apply IH.
Qed.

(** With inherited consent a step does not read the [random] module. *)
Lemma inheriting_step (m : Multiverse) (w w' : py_state) :
  inherit_consent (cfg (ethics m)) = true -> decided (universes m) ->
  (step m w).1 = (step m w').1
  /\ inherit_consent (cfg (ethics (step m w).1)) = true
  /\ decided (universes (step m w).1).
Proof.
  intros Hi Hu. rewrite !step_unfold. unfold loop.
  assert (Hs : inheriting (enter m w)).
  { split; [exact Hi|]. split; [exact Hu|]. apply Forall_nil_2. }
  change (enter m w') with (reglob w' (enter m w)). simpl.
  set (l := seq 0 (length (universes m))).
  destruct (inheriting_loop w' l _ Hs) as [(H1 & H2 & H3) ->].
  split; [done|]. split; [done|]. simpl. apply Forall_app. by split.
Qed.



(** * Further properties of the code *)

(** ** [check_and_record] *)

(** The entry that a call appends, field by field. *)
Lemma check_and_record_ledger (e : EthicsEngine) (t : nat) (ev : string)
    (src dst : option nat) (p : Q) (sc dc : bool) :
  let r := check_and_record e t ev src dst p sc dc in
  ledger r.2 = ledger e ++ [{|
    le_t := t; le_type := ev; le_src := src; le_dst := dst;
    le_proposed := p; le_allowed := r.1.1.1;
    le_amount := if r.1.1.1 then r.1.1.2 else 0.0;
    le_policy := mode (policy e); le_src_consents := sc;
    le_dst_consents := dc; le_reason := r.1.2 |}].
Proof.
  unfold check_and_record. repeat case_match; simplify_eq; reflexivity.
Qed.

Lemma check_and_record_floor (e : EthicsEngine) (t : nat) (ev : string)
    (src dst : option nat) (p : Q) (sc dc : bool) :
  0 <= (check_and_record e t ev src dst p sc dc).1.1.2.
Proof.
  unfold check_and_record. repeat case_match; simplify_eq; simpl;
    apply pymax_floor.
Qed.

Lemma check_and_record_granted (e : EthicsEngine) (t : nat) (ev : string)
    (src dst : option nat) (p : Q) (sc dc : bool) :
  (check_and_record e t ev src dst p sc dc).1.1.1 = true <->
  granted e dst sc dc.
Proof.
  unfold check_and_record, granted.
  destruct (allows_export (policy e)) eqn:Ha; simpl.
  - apply allows_export_mode in Ha.
    case_decide as Hc; simpl.
    + destruct sc, dst as [d|], dc; simpl; split; try done;
        try (intros _; right; repeat split; try done; by intros [? ?]);
        intros [Ho|(_ & Hs & Hd)]; try congruence;
        try (by apply Hd; eexists).
    + split; [intros _; left; by destruct Ha|done].
  - assert (Hn : ~ (mode (policy e) = "consensual"
                    \/ mode (policy e) = "open")).
    { rewrite <- allows_export_mode. congruence. }
    split; [done|]. intros [?|[? _]]; exfalso; apply Hn; auto.
Qed.

(** X3.  The decision table of [check_and_record] is complete: a call is
    allowed exactly when it is [granted] and refused exactly when it is
    [denied]; the reason is [ok] exactly for the allowed calls and is one
    of the three codes. *)
Theorem decision_table (e : EthicsEngine) (t : nat) (ev : string)
    (src dst : option nat) (p : Q) (sc dc : bool) :
  let r := check_and_record e t ev src dst p sc dc in
  (r.1.1.1 = true <-> granted e dst sc dc)
  /\ (r.1.1.1 = false <-> denied e dst sc dc)
  /\ (r.1.2 = "ok" <-> r.1.1.1 = true)
  /\ r.1.2 ∈ ["ok"; "policy_closed"; "no_consent"].
Proof.
  split; [apply check_and_record_granted|].
  split.
  { rewrite <- not_true_iff_false, check_and_record_granted.
    unfold granted, denied.
    destruct (allows_export (policy e)) eqn:Ha.
    - split.
      + intros Hn. right.
        destruct (proj1 (allows_export_mode _) Ha) as [Hm|Hm];
          [|exfalso; apply Hn; by left].
        split; [done|]. destruct sc; [right|by left].
        destruct dst as [d|], dc;
          try (exfalso; apply Hn; right; repeat split; try done;
               by intros [x Hx]).
        split; [by eexists|done].
      + intros [Hf|(Hc & Hd)] [Ho|(_ & Hs & Hi)]; try congruence.
        destruct Hd as [Hd|[Hsome Hdc]]; [congruence|].
        specialize (Hi Hsome). congruence.
    - split; [intros _; by left|].
      intros _ [Ho|[Hc _]];
        assert (allows_export (policy e) = true)
          by (apply allows_export_mode; auto); congruence. }
  unfold check_and_record.
  repeat case_match; simplify_eq; simpl; split; try done;
    rewrite !elem_of_cons; auto.
Qed.

Lemma pymax_floor_id (x : Q) : 0 <= x -> pymax 0.0 x == x.
Proof.
  intros H. destruct (pymax_cases 0.0 x) as [[_ ->]|[H' ->]]; lra.
Qed.

Lemma granted_scale (e : EthicsEngine) (dst : option nat) (sc dc : bool) :
  granted e dst sc dc ->
  (mode (policy e) = "open" /\ scale (policy e) = 1.0)
  \/ (mode (policy e) = "consensual" /\ scale (policy e) = 0.5).
Proof.
  unfold scale. intros [Hm|[Hm _]]; rewrite Hm; [left|right]; by split.
Qed.

(** X1.  For a strictness between 0 and 1 and a proposal that is not
    negative, an allowed call returns the proposal times [scale()] times
    the strictness: at most the proposal under the open policy and at most
    half of it under the consensual one, and never less than 0. *)
Theorem authorized_amount (e : EthicsEngine) (t : nat) (ev : string)
    (src dst : option nat) (p : Q) (sc dc : bool) :
  0 <= strictness (cfg e) <= 1 ->
  0 <= p ->
  granted e dst sc dc ->
  let r := check_and_record e t ev src dst p sc dc in
  r.1.1.2 == p * scale (policy e) * strictness (cfg e)
  /\ 0 <= r.1.1.2 <= p
  /\ (mode (policy e) = "open" -> r.1.1.2 == p * strictness (cfg e))
  /\ (mode (policy e) = "consensual" ->
      r.1.1.2 == p * strictness (cfg e) / 2 /\ r.1.1.2 <= p / 2).
Proof.
  intros Hs Hp Hg r.
  pose proof (check_and_record_allowed e t ev src dst p sc dc
                (proj2 (check_and_record_granted e t ev src dst p sc dc) Hg))
    as Ha.
  fold r in Ha. rewrite Ha. clear Ha r.
  set (s := strictness (cfg e)) in *.
  assert (Hps : 0 <= p * s <= p) by nra.
  destruct (granted_scale e dst sc dc Hg) as [[Hm Hk]|[Hm Hk]]; rewrite Hk.
  - assert (E : p * (1.0 * s) == p * s) by ring.
    rewrite (pymax_floor_id (p * (1.0 * s))) by (rewrite E; lra).
    split; [ring|]. split; [rewrite E; lra|]. split; [intros _; ring|].
    intros Hm'. rewrite Hm in Hm'. discriminate.
  - assert (E : p * (0.5 * s) == (1 # 2) * (p * s)) by ring.
    assert (E2 : p * s / 2 == (1 # 2) * (p * s)) by field.
    assert (E3 : p / 2 == (1 # 2) * p) by field.
    rewrite (pymax_floor_id (p * (0.5 * s))) by (rewrite E; lra).
    split; [ring|]. split; [rewrite E; lra|]. split.
    + intros Hm'. rewrite Hm in Hm'. discriminate.
    + intros _. rewrite E, E2, E3. split; [reflexivity|lra].
Qed.

(** X2.  Whatever the arguments, the amount returned is not negative, and
    the amount written to the ledger lies between 0 and the amount
    returned, next to the proposal as it was made; an allowed call for
    which proposal times strictness is not positive returns the literal
    0.0. *)
Theorem amounts_never_negative (e : EthicsEngine) (t : nat) (ev : string)
    (src dst : option nat) (p : Q) (sc dc : bool) :
  let r := check_and_record e t ev src dst p sc dc in
  0 <= r.1.1.2
  /\ (exists entry, ledger r.2 = ledger e ++ [entry]
        /\ 0 <= le_amount entry <= r.1.1.2
        /\ le_proposed entry = p)
  /\ (granted e dst sc dc -> p * strictness (cfg e) <= 0 ->
      r.1.1.2 = 0.0).
Proof.
  intros r. pose proof (check_and_record_floor e t ev src dst p sc dc) as Hf.
  fold r in Hf. split; [done|]. split.
  - eexists. split; [apply check_and_record_ledger|]. fold r. simpl.
    split; [|done]. destruct (r.1.1.1); lra.
  - intros Hg Hps.
    pose proof (check_and_record_allowed e t ev src dst p sc dc
                  (proj2 (check_and_record_granted e t ev src dst p sc dc) Hg))
      as Ha.
    fold r in Ha. rewrite Ha. apply pymax_floor_nonpos.
    destruct (granted_scale e dst sc dc Hg) as [[_ ->]|[_ ->]]; lra.
Qed.

(** ** The collapse hazard *)


Lemma logistic_range (x : Q) : 0 <= x -> 0 < 1.0 / (1.0 + x) <= 1.
Proof.
  intros Hx. split.
  - apply Qlt_shift_div_l; lra.
  - apply Qle_shift_div_r; lra.
Qed.

(** X5.  Where [math.exp] returns a value that is not negative, and the
    decay rate lies between 0 and 0.95/1.5, the hazard stays in the band
    from 0.5 to 1.5 times the decay rate that the source announces, and
    the cap at 0.95 is not reached. *)
Theorem collapse_prob_band (m : Multiverse) (u : Bubble) :
  0 <= math_exp (- decay_slope (dyn m)
                 * (inflation_rate u - decay_inflection (dyn m))) ->
  0 <= decay_rate (dyn m) ->
  1.5 * decay_rate (dyn m) <= 0.95 ->
  0.5 * decay_rate (dyn m) <= _collapse_prob m u <= 1.5 * decay_rate (dyn m).
Proof.
  intros He Hr Hc. unfold _collapse_prob.
  pose proof (logistic_range _ He) as Hl.
  set (lg := 1.0 / (1.0 + _)) in *. set (r := decay_rate (dyn m)) in *.
  assert (Hp : 0.5 * r <= r * (0.5 + lg) <= 1.5 * r) by nra.
  destruct (pymax_cases 0.0 (r * (0.5 + lg))) as [[H1 ->]|[H1 ->]];
    match goal with
    | |- _ <= pymin ?a ?b <= _ =>
        destruct (pymin_cases a b) as [[H2 ->]|[H2 ->]]
    end; lra.
Qed.

(** ** More on the loop of [step] *)

Lemma other_bubbles (i j : nat) (s : LoopState) :
  i <> j ->
  universes (sim (drift i s)) !! j = universes (sim s) !! j
  /\ universes (sim (produce i s)) !! j = universes (sim s) !! j
  /\ universes (sim (tunnel i s)) !! j = universes (sim s) !! j
  /\ universes (sim (collapse i s)) !! j = universes (sim s) !! j.
Proof.
  intros Hij. repeat split; open_op; try done;
    by rewrite list_lookup_insert_ne.
Qed.

Lemma flags_kept (i : nat) (s : LoopState) :
  stable_flags (universes (sim (drift i s)))
    = stable_flags (universes (sim s))
  /\ stable_flags (universes (sim (produce i s)))
     = stable_flags (universes (sim s))
  /\ stable_flags (universes (sim (tunnel i s)))
     = stable_flags (universes (sim s)).
Proof.
  repeat split; open_op; try done; by eapply stable_flags_insert.
Qed.

Lemma alive_flags (i : nat) (s : LoopState) :
  alive i s <-> stable_flags (universes (sim s)) !! i = Some true.
Proof.
  unfold alive, stable_flags. rewrite list_lookup_fmap. split.
  - intros (u & -> & Hs). simpl. by rewrite Hs.
  - destruct (universes (sim s) !! i) as [u|]; [|done].
    simpl. intros [= Hs]. by exists u.
Qed.

Lemma alive_kept (i : nat) (s : LoopState) :
  alive i s ->
  alive i (drift i s) /\ alive i (produce i s) /\ alive i (tunnel i s).
Proof.
  rewrite !alive_flags. destruct (flags_kept i s) as (-> & -> & ->). done.
Qed.

(** The loop applies the four operations to stable bubbles only: a property
    that they keep when the bubble at hand is stable is kept by the loop. *)
Lemma loop_invariant_alive (I : LoopState -> Prop) :
  (forall i s, alive i s -> I s -> I (drift i s)) ->
  (forall i s, alive i s -> I s -> I (produce i s)) ->
  (forall i s, alive i s -> I s -> I (tunnel i s)) ->
  (forall i s, alive i s -> I s -> I (collapse i s)) ->
  forall (l : list nat) (s : LoopState), I s -> I (foldl visit s l).
Proof.
  intros Hd Hp Ht Hc l. induction l as [|i l IH]; intros s Hs; [done|].
  simpl. apply IH.
  destruct (visit_cases s i) as [->|(u & Hu & Hst & ->)]; [done|].
  assert (H0 : alive i s) by (by exists u).
  destruct (alive_kept i s H0) as (H1 & _ & _).
  destruct (alive_kept i _ H1) as (_ & H2 & _).
  destruct (alive_kept i _ H2) as (_ & _ & H3).
  auto.
Qed.

(** ** What a step never undoes *)

Lemma growing_loop (l0 : list LedgerEntry) (x0 : Q) (l : list nat)
    (s : LoopState) :
  l0 `prefix_of` ledger (ethics (sim s)) /\ x0 <= exported_total (sim s) ->
  l0 `prefix_of` ledger (ethics (sim (foldl visit s l)))
  /\ x0 <= exported_total (sim (foldl visit s l)).
Proof.
  apply (loop_invariant
           (fun s => l0 `prefix_of` ledger (ethics (sim s))
                     /\ x0 <= exported_total (sim s)));
    clear; intros i s [Hl Hx].
  - open_op; done.
  - open_op; done.
  - open_op; try done;
      match goal with
      | H : check_and_record ?e ?t ?ev ?a ?b ?p ?c ?d = _ |- _ =>
          pose proof (check_and_record_ledger e t ev a b p c d) as He;
          rewrite H in He; simpl in He; rewrite He
      end;
      (split; [by apply prefix_app_r|]); try done.
    all: match goal with
         | H : _ && _ = true |- _ =>
             apply andb_prop in H as [_ H]; apply Qltb_lt in H; lra
         end.
  - open_op; try done;
      match goal with
      | H : check_and_record ?e ?t ?ev ?a ?b ?p ?c ?d = _ |- _ =>
          pose proof (check_and_record_ledger e t ev a b p c d) as He;
          rewrite H in He; simpl in He; rewrite He
      end;
      (split; [by apply prefix_app_r|]); try done.
    all: match goal with
         | H : _ && _ = true |- _ =>
             apply andb_prop in H as [_ H]; apply Qltb_lt in H; lra
         end.
Qed.

Lemma step_grows (m : Multiverse) (w : py_state) :
  ledger (ethics m) `prefix_of` ledger (ethics (step m w).1)
  /\ exported_total m <= exported_total (step m w).1
  /\ t (step m w).1 = S (t m)
  /\ dyn (step m w).1 = dyn m
  /\ policy (ethics (step m w).1) = policy (ethics m)
  /\ cfg (ethics (step m w).1) = cfg (ethics m).
Proof.
  rewrite step_unfold. unfold loop.
  set (s := enter m w). set (l := seq 0 (length (universes (sim s)))).
  destruct (growing_loop (ledger (ethics m)) (exported_total m) l s)
    as [Hl Hx]; [split; [done|]; simpl; lra|].
  destruct (frame_loop l s) as (Hd & Ht & Hp & Hc & _).
  simpl in *. rewrite Ht, Nat.add_1_r. done.
Qed.

(** X6.  Steps only add: after any number of steps the earlier ledger is a
    prefix of the ledger, the exported total has not decreased, [t] has
    advanced by the number of steps, and the parameters, the policy and the
    ethics configuration are those of the start. *)
Theorem steps_only_add (n : nat) (m : Multiverse) (w : py_state) :
  ledger (ethics m) `prefix_of` ledger (ethics (steps n m w).1)
  /\ exported_total m <= exported_total (steps n m w).1
  /\ t (steps n m w).1 = (t m + n)%nat
  /\ dyn (steps n m w).1 = dyn m
  /\ policy (ethics (steps n m w).1) = policy (ethics m)
  /\ cfg (ethics (steps n m w).1) = cfg (ethics m).
Proof.
  revert m w. induction n as [|n IH]; intros m w.
  { simpl. rewrite Nat.add_0_r. repeat split; try done. lra. }
  rewrite steps_S.
  destruct (step_grows m w) as (Hl & Hx & Ht & Hd & Hp & Hc).
  destruct (IH (step m w).1 (step m w).2) as (Hl' & Hx' & Ht' & Hd' & Hp' & Hc').
  split; [by etrans|]. split; [lra|]. split; [lia|].
  split; [congruence|]. split; congruence.
Qed.

(** ** The exported total is the sum of the ledger *)

Lemma Qsum_snoc (l : list Q) (x : Q) : Qsum (l ++ [x]) == Qsum l + x.
Proof.
  unfold Qsum. induction l as [|y l IH]; simpl; [lra|]. rewrite IH. lra.
Qed.

Lemma ledger_total_snoc (l : list LedgerEntry) (r : LedgerEntry) :
  ledger_total (l ++ [r]) == ledger_total l + le_amount r.
Proof. unfold ledger_total. rewrite fmap_app. apply Qsum_snoc. Qed.

Lemma audited_loop (l : list nat) (s : LoopState) :
  exported_total (sim s) == ledger_total (ledger (ethics (sim s))) ->
  exported_total (sim (foldl visit s l))
  == ledger_total (ledger (ethics (sim (foldl visit s l)))).
Proof.
  apply (loop_invariant
           (fun s => exported_total (sim s)
                     == ledger_total (ledger (ethics (sim s)))));
    clear; intros i s Hx.
  - open_op; done.
  - open_op; done.
  - open_op; try done;
      match goal with
      | H : check_and_record ?e ?t ?ev ?a ?b ?p ?c ?d = _ |- _ =>
          pose proof (check_and_record_ledger e t ev a b p c d) as He;
          pose proof (check_and_record_floor e t ev a b p c d) as Hf;
          rewrite H in He, Hf; simpl in He, Hf;
          rewrite He, ledger_total_snoc; simpl
      end;
      match goal with
      | H : _ && _ = true |- _ =>
          apply andb_prop in H as [-> _]; lra
      | H : _ && _ = false |- _ =>
          apply andb_false_iff in H as [->|H];
          [|apply Qltb_ge in H; case_match]; lra
      end.
  - open_op; try done;
      match goal with
      | H : check_and_record ?e ?t ?ev ?a ?b ?p ?c ?d = _ |- _ =>
          pose proof (check_and_record_ledger e t ev a b p c d) as He;
          pose proof (check_and_record_floor e t ev a b p c d) as Hf;
          rewrite H in He, Hf; simpl in He, Hf;
          rewrite He, ledger_total_snoc; simpl
      end;
      match goal with
      | H : _ && _ = true |- _ =>
          apply andb_prop in H as [-> _]; lra
      | H : _ && _ = false |- _ =>
          apply andb_false_iff in H as [->|H];
          [|apply Qltb_ge in H; case_match]; lra
      end.
Qed.

Lemma audited_step (m : Multiverse) (w : py_state) :
  exported_total m == ledger_total (ledger (ethics m)) ->
  exported_total (step m w).1 == ledger_total (ledger (ethics (step m w).1)).
Proof.
  intros H. rewrite step_unfold. unfold loop. by apply audited_loop.
Qed.

(** X7.  The books balance: after construction and any number of steps the
    cumulative exported total (the [Δℰ] of the metrics) equals the sum of
    the amounts recorded in the ledger. *)
Theorem exported_total_audited (a : MultiverseArgs) (w0 : py_state)
    (m0 : Multiverse) (w1 : py_state) :
  Multiverse_init a w0 = (Ok m0, w1) ->
  forall (n : nat) (w : py_state),
    m_dE (metrics (steps n m0 w).1)
    == ledger_total (ledger (ethics (steps n m0 w).1)).
Proof.
  intros Hi n w.
  apply Multiverse_init_ok in Hi as (_ & He & _ & _ & _ & Hx & _).
  change (m_dE (metrics (steps n m0 w).1))
    with (exported_total (steps n m0 w).1).
  apply (steps_invariant
           (fun m => exported_total m == ledger_total (ledger (ethics m))));
    [apply audited_step|].
  by rewrite He, Hx.
Qed.

(** ** Collapsed bubbles *)

Lemma dead_loop (k : nat) (u : Bubble) (l : list nat) (s : LoopState) :
  stable u = false ->
  universes (sim s) !! k = Some u ->
  universes (sim (foldl visit s l)) !! k = Some u.
Proof.
  intros Hu.
  apply (loop_invariant_alive (fun s => universes (sim s) !! k = Some u));
    intros i s' (v & Hv & Hs) Hk;
    (assert (Hik : i <> k) by (intros ->; congruence));
    destruct (other_bubbles i k s' Hik) as (H1 & H2 & H3 & H4); congruence.
Qed.

Lemma dead_step (m : Multiverse) (w : py_state) (k : nat) (u : Bubble) :
  universes m !! k = Some u -> stable u = false ->
  universes (step m w).1 !! k = Some u.
Proof.
  intros Hk Hu. rewrite step_unfold. unfold loop. simpl.
  apply lookup_app_l_Some. by apply dead_loop.
Qed.

(** X8.  Collapse is final: a bubble that is not stable is skipped by every
    later step, which leaves it in its place exactly as it is (not stable,
    same invariants, same inflation rate). *)
Theorem collapse_is_final (m : Multiverse) (k : nat) (u : Bubble) :
  universes m !! k = Some u ->
  stable u = false ->
  forall (n : nat) (w : py_state), universes (steps n m w).1 !! k = Some u.
Proof.
  intros Hk Hu n. revert m Hk. induction n as [|n IH]; intros m Hk w; [done|].
  rewrite steps_S. apply IH. by apply dead_step.
Qed.

Lemma spent_loop (l : list nat) (s : LoopState) :
  Forall spent (universes (sim s)) /\ Forall spent (new_universes s) ->
  Forall spent (universes (sim (foldl visit s l)))
  /\ Forall spent (new_universes (foldl visit s l)).
Proof.
  apply (loop_invariant_alive
           (fun s => Forall spent (universes (sim s))
                     /\ Forall spent (new_universes s)));
    clear; intros i s (v & Hv & Hs) [Hu Hn].
  - open_op; try done. split; [|done].
    apply Forall_insert; [done|]. intros Hd. simpl in Hd. congruence.
  - open_op; try done. split; [|done].
    apply Forall_insert; [done|]. intros Hd. simpl in Hd. congruence.
  - open_op; try done;
      (split; [try apply Forall_insert; try done;
               intros Hd; simpl in Hd; congruence|]);
      (apply Forall_app; split; [done|]; apply Forall_singleton;
       intros Hd; simpl in Hd; congruence).
  - open_op; try done; (split; [|done]);
      (apply Forall_insert; [done|]); by intros _.
Qed.

Lemma founders_fresh (n : nat) (im isg : Q) (e : EthicsEngine)
    (g : np_state) (w : py_state) (us : list Bubble) :
  Forall (fun u => stable u = true /\ invariants u = 0.0
                   /\ parent_id u = None /\ is_Some (consent u)
                   /\ 0 <= inflation_rate u) us ->
  Forall (fun u => stable u = true /\ invariants u = 0.0
                   /\ parent_id u = None /\ is_Some (consent u)
                   /\ 0 <= inflation_rate u)
    (founders n im isg e g w us).2.
Proof.
  revert g w us. induction n as [|n IH]; intros g w us Hus; [done|].
  simpl. destruct (np_normal im isg g) as [x g'].
  destruct (py_random w) as [r w']. apply IH.
  apply Forall_app. split; [done|]. apply Forall_singleton. simpl.
  repeat split; try done; try (by eexists); apply pymax_floor.
Qed.

(** X9.  A collapsed bubble holds nothing: after construction and any
    number of steps, every bubble that is not stable has invariants 0.0. *)
Theorem collapsed_hold_nothing (a : MultiverseArgs) (w0 : py_state)
    (m0 : Multiverse) (w1 : py_state) :
  Multiverse_init a w0 = (Ok m0, w1) ->
  forall (n : nat) (w : py_state) (k : nat) (u : Bubble),
    universes (steps n m0 w).1 !! k = Some u ->
    stable u = false -> invariants u = 0.0.
Proof.
  intros Hi n w k u Hk.
  apply Multiverse_init_ok in Hi as (_ & _ & _ & _ & _ & _ & Hfo).
  assert (H : Forall spent (universes (steps n m0 w).1)).
  { apply (steps_invariant (fun m => Forall spent (universes m))).
    - intros m w' Hm. rewrite step_unfold. unfold loop.
      destruct (spent_loop (seq 0 (length (universes (sim (enter m w')))))
                  (enter m w')) as [H1 H2]; [by split|].
      simpl. apply Forall_app. by split.
    - pose proof (founders_fresh (Z.to_nat (a_n_initial a)) (a_inf_mean a)
                    (a_inf_sigma a) (engine (a_policy a) (a_ethics_cfg a))
                    (np_default_rng (a_seed a)) (py_seed (a_seed a)) []
                    (Forall_nil_2 _)) as H.
      rewrite <- Hfo in H. simpl in H.
      eapply Forall_impl; [exact H|]. intros v (Hs & _) Hd. congruence. }
  exact (Forall_lookup_1 _ _ _ _ H Hk).
Qed.

(** ** One ledger entry per birth and per collapse *)

Lemma leave_universes (s : LoopState) :
  universes (leave s).1 = universes (sim s) ++ new_universes s.
Proof. reflexivity. Qed.

Lemma leave_ethics (s : LoopState) : ethics (leave s).1 = ethics (sim s).
Proof. reflexivity. Qed.

Lemma count_type_snoc (ty : string) (l : list LedgerEntry) (r : LedgerEntry) :
  count_type ty (l ++ [r])
  = (count_type ty l + if decide (le_type r = ty) then 1 else 0)%nat.
Proof.
  unfold count_type. rewrite filter_app, length_app, filter_cons, filter_nil.
  by case_decide.
Qed.

Lemma dead_count_app (us vs : list Bubble) :
  dead_count (us ++ vs) = (dead_count us + dead_count vs)%nat.
Proof. unfold dead_count. by rewrite filter_app, length_app. Qed.

Lemma dead_count_insert_same (us : list Bubble) (i : nat) (u u' : Bubble) :
  us !! i = Some u -> stable u' = stable u ->
  dead_count (<[i := u']> us) = dead_count us.
Proof.
  unfold dead_count. revert i. induction us as [|v us IH]; intros [|i] Hi Hs;
    try done; simpl in *.
  - simplify_eq. rewrite !filter_cons, Hs. by repeat case_decide.
  - rewrite !filter_cons. case_decide; simpl; by rewrite (IH i).
Qed.

Lemma dead_count_insert_dead (us : list Bubble) (i : nat) (u u' : Bubble) :
  us !! i = Some u -> stable u = true -> stable u' = false ->
  dead_count (<[i := u']> us) = S (dead_count us).
Proof.
  unfold dead_count. revert i. induction us as [|v us IH]; intros [|i] Hi Hs Hd;
    try done; simpl in *.
  - simplify_eq. rewrite !filter_cons.
    rewrite decide_True by done. rewrite decide_False by congruence. done.
  - rewrite !filter_cons. case_decide; simpl; by rewrite (IH i).
Qed.

Lemma dead_count_stable (us : list Bubble) :
  Forall (fun u => stable u = true) us -> dead_count us = O.
Proof.
  unfold dead_count. induction 1 as [|u us Hu _ IH]; [done|].
  rewrite filter_cons. rewrite decide_False by congruence. done.
Qed.

Lemma counted_loop (n0 : nat) (l : list nat) (s : LoopState) :
  (count_type "birth" (ledger (ethics (sim s))) + n0 = population s
   /\ count_type "collapse" (ledger (ethics (sim s)))
      = dead_count (universes (sim s))
   /\ dead_count (new_universes s) = 0)%nat ->
  (count_type "birth" (ledger (ethics (sim (foldl visit s l)))) + n0
   = population (foldl visit s l)
   /\ count_type "collapse" (ledger (ethics (sim (foldl visit s l))))
      = dead_count (universes (sim (foldl visit s l)))
   /\ dead_count (new_universes (foldl visit s l)) = 0)%nat.
Proof.
  apply (loop_invariant_alive
           (fun s =>
              (count_type "birth" (ledger (ethics (sim s))) + n0
               = population s
               /\ count_type "collapse" (ledger (ethics (sim s)))
                  = dead_count (universes (sim s))
               /\ dead_count (new_universes s) = 0)%nat));
    clear; intros i s (v & Hv & Hs) (Hb & Hc & Hn); unfold population in *.
  - open_op; try done. rewrite length_insert.
    by erewrite dead_count_insert_same.
  - open_op; try done. rewrite length_insert.
    by erewrite dead_count_insert_same.
  - open_op; try done;
      match goal with
      | H : check_and_record ?e ?t ?ev ?a ?b ?p ?c ?d = _ |- _ =>
          pose proof (check_and_record_ledger e t ev a b p c d) as He;
          rewrite H in He; simpl in He; rewrite He
      end;
      rewrite !count_type_snoc, ?length_insert, !length_app,
        dead_count_app; simpl;
      try (erewrite dead_count_insert_same by done);
      (rewrite (dead_count_stable [_]) by (by apply Forall_singleton));
      lia.
  - open_op; try done;
      match goal with
      | H : check_and_record ?e ?t ?ev ?a ?b ?p ?c ?d = _ |- _ =>
          pose proof (check_and_record_ledger e t ev a b p c d) as He;
          rewrite H in He; simpl in He; rewrite He
      end;
      rewrite !count_type_snoc, ?length_insert; simpl;
      (erewrite dead_count_insert_dead by done); lia.
Qed.

Lemma founders_count (n : nat) (im isg : Q) (e : EthicsEngine)
    (g : np_state) (w : py_state) (us : list Bubble) :
  length (founders n im isg e g w us).2 = (length us + n)%nat.
Proof.
  revert g w us. induction n as [|n IH]; intros g w us; [simpl; lia|].
  simpl. destruct (np_normal im isg g) as [x g'].
  destruct (py_random w) as [r w']. rewrite IH, length_app. simpl. lia.
Qed.

Lemma dead_count_complement (us : list Bubble) :
  (stable_count us + dead_count us = length us)%nat.
Proof.
  unfold stable_count, dead_count. induction us as [|u us IH]; [done|].
  rewrite !filter_cons. destruct (stable u);
    repeat case_decide; simpl; try congruence; lia.
Qed.

(** X10.  Every birth and every collapse is on the ledger, once: after
    construction and any number of steps, the entries of type [birth] are
    as many as the bubbles that are not founders, and the entries of type
    [collapse] as many as the bubbles that are not stable (the total count
    of the metrics less the stable count). *)
Theorem ledger_counts_events (a : MultiverseArgs) (w0 : py_state)
    (m0 : Multiverse) (w1 : py_state) :
  Multiverse_init a w0 = (Ok m0, w1) ->
  forall (n : nat) (w : py_state),
    let m := (steps n m0 w).1 in
    (count_type "birth" (ledger (ethics m)) + Z.to_nat (a_n_initial a)
     = length (universes m)
     /\ count_type "collapse" (ledger (ethics m))
          + m_universes_stable (metrics m)
        = m_universes_total (metrics m))%nat.
Proof.
  intros Hi n w m.
  apply Multiverse_init_ok in Hi as (_ & He & _ & _ & _ & _ & Hfo).
  set (n0 := Z.to_nat (a_n_initial a)).
  assert (H : (count_type "birth" (ledger (ethics m)) + n0
               = length (universes m)
               /\ count_type "collapse" (ledger (ethics m))
                  = dead_count (universes m))%nat).
  { apply (steps_invariant
             (fun m => (count_type "birth" (ledger (ethics m)) + n0
                        = length (universes m)
                        /\ count_type "collapse" (ledger (ethics m))
                           = dead_count (universes m))%nat)).
    - intros m' w' [Hb Hc]. rewrite step_unfold. unfold loop.
      destruct (counted_loop n0
                  (seq 0 (length (universes (sim (enter m' w')))))
                  (enter m' w')) as (H1 & H2 & H3).
      { unfold population. simpl. rewrite Nat.add_0_r. done. }
      unfold population in H1.
      rewrite leave_universes, leave_ethics, length_app, dead_count_app, H3,
        Nat.add_0_r.
      done.
    - pose proof (founders_fresh n0 (a_inf_mean a)
                    (a_inf_sigma a) (engine (a_policy a) (a_ethics_cfg a))
                    (np_default_rng (a_seed a)) (py_seed (a_seed a)) []
                    (Forall_nil_2 _)) as Hf.
      pose proof (founders_count n0 (a_inf_mean a)
                    (a_inf_sigma a) (engine (a_policy a) (a_ethics_cfg a))
                    (np_default_rng (a_seed a)) (py_seed (a_seed a)) [])
        as Hl.
      unfold n0 in Hf, Hl. rewrite <- Hfo in Hf, Hl. simpl in Hf, Hl.
      rewrite He. simpl.
      split; [by rewrite Hl|].
      symmetry. apply dead_count_stable.
      eapply Forall_impl; [exact Hf|]. by intros u (Hs & _). }
  destruct H as [Hb Hc]. split; [done|]. simpl. rewrite Hc.
  pose proof (dead_count_complement (universes m)). lia.
Qed.

(** ** Genealogy *)

Lemma kin_insert (us : list Bubble) (i : nat) (u u' : Bubble) :
  us !! i = Some u -> kin u' = kin u -> kin <$> <[i := u']> us = kin <$> us.
Proof.
  intros Hi Hk. rewrite list_fmap_insert, Hk.
  apply list_insert_id. by rewrite list_lookup_fmap, Hi.
Qed.

Lemma kin_insert_app (us new : list Bubble) (i : nat) (u u' : Bubble) :
  us !! i = Some u -> kin u' = kin u ->
  kin <$> (<[i := u']> us ++ new) = kin <$> (us ++ new).
Proof.
  intros Hi Hk. rewrite !fmap_app. f_equal. by eapply kin_insert.
Qed.

Lemma lineage_snoc (n0 : nat) (inh : bool)
    (K : list (nat * option nat * option bool)) (p : nat)
    (kp : nat * option nat * option bool) (c : option bool) :
  lineage n0 inh K -> (n0 <= length K)%nat ->
  K !! p = Some kp -> is_Some c -> (inh = true -> c = kp.2) ->
  lineage n0 inh (K ++ [(length K, Some p, c)]).
Proof.
  intros HK Hn Hp Hc Hinh i k Hi.
  pose proof (lookup_lt_Some _ _ _ Hp) as Hlt.
  destruct (decide (i < length K)%nat) as [Hlt'|Hge].
  - rewrite lookup_app_l in Hi by done.
    destruct (HK i k Hi) as (H1 & H2 & H3 & H4).
    split; [done|]. split; [done|]. split; [done|].
    intros Hle. destruct (H4 Hle) as (q & kq & Hq1 & Hq2 & Hq3 & Hq4).
    exists q, kq. split; [done|]. split; [done|]. split; [|done].
    rewrite lookup_app_l; [done|]. by eapply lookup_lt_Some.
  - pose proof (lookup_lt_Some _ _ _ Hi) as Hlen.
    rewrite length_app in Hlen. simpl in Hlen.
    assert (i = length K) as -> by lia.
    rewrite list_lookup_middle in Hi by done. injection Hi as <-. simpl.
    split; [done|]. split; [done|]. split; [lia|].
    intros _. exists p, kp. split; [done|]. split; [done|].
    split; [|done]. by rewrite lookup_app_l.
Qed.

Lemma lineage_loop (n0 : nat) (inh : bool) (l : list nat) (s : LoopState) :
  inherit_consent (cfg (ethics (sim s))) = inh
  /\ (n0 <= population s)%nat
  /\ lineage n0 inh (kin <$> (universes (sim s) ++ new_universes s)) ->
  inherit_consent (cfg (ethics (sim (foldl visit s l)))) = inh
  /\ (n0 <= population (foldl visit s l))%nat
  /\ lineage n0 inh
       (kin <$> (universes (sim (foldl visit s l))
                 ++ new_universes (foldl visit s l))).
Proof.
  apply (loop_invariant
           (fun s => inherit_consent (cfg (ethics (sim s))) = inh
                     /\ (n0 <= population s)%nat
                     /\ lineage n0 inh
                          (kin <$> (universes (sim s) ++ new_universes s))));
    clear; intros i s (Hi & Hn & HK); unfold population in *.
  - open_op; try done. rewrite length_insert.
    by erewrite kin_insert_app.
  - open_op; try done. rewrite length_insert.
    by erewrite kin_insert_app.
  - destruct (universes (sim s) !! i) as [u|] eqn:Hu;
      [|unfold tunnel, at_bubble; by rewrite Hu].
    assert (Hk : (kin <$> (universes (sim s) ++ new_universes s)) !! i
                 = Some (kin u)).
    { by rewrite list_lookup_fmap, lookup_app_l_Some with (x := u). }
    destruct (HK i _ Hk) as (Hid & Hdec & _). simpl in Hid, Hdec.
    open_op; try done;
      match goal with
      | H : check_and_record ?e ?t ?ev ?a ?b ?p ?c ?d = _ |- _ =>
          pose proof (check_and_record_engine e t ev a b p c d) as He;
          rewrite H in He; simpl in He; destruct He as (_ & -> & _)
      end;
      (split; [done|]);
      rewrite ?length_insert, !length_app; (split; [simpl; lia|]);
      rewrite app_assoc, fmap_app; try (erewrite kin_insert_app by done);
      simpl.
    all: match goal with
         | |- lineage _ _ (?K ++ _) =>
             assert (Hlen : length K
                            = (length (universes (sim s))
                               + length (new_universes s))%nat)
               by (by rewrite length_fmap, length_app)
         end.
    all: cbn [kin set_invariants id parent_id consent]; rewrite <- Hlen.
    all: eapply (lineage_snoc _ _ _ (id u) (kin u));
      [done|lia|done| |]; simpl; try done; try (by eexists).
  - open_op; try done; rewrite ?length_insert;
      match goal with
      | H : check_and_record ?e ?t ?ev ?a ?b ?p ?c ?d = _ |- _ =>
          pose proof (check_and_record_engine e t ev a b p c d) as He;
          rewrite H in He; simpl in He; destruct He as (_ & -> & _)
      end;
      by erewrite kin_insert_app.
Qed.

Lemma lineage_step (n0 : nat) (inh : bool) (m : Multiverse) (w : py_state) :
  inherit_consent (cfg (ethics m)) = inh
  /\ (n0 <= length (universes m))%nat
  /\ lineage n0 inh (kin <$> universes m) ->
  inherit_consent (cfg (ethics (step m w).1)) = inh
  /\ (n0 <= length (universes (step m w).1))%nat
  /\ lineage n0 inh (kin <$> universes (step m w).1).
Proof.
  intros (Hi & Hn & HK). rewrite step_unfold. unfold loop.
  destruct (lineage_loop n0 inh
              (seq 0 (length (universes (sim (enter m w))))) (enter m w))
    as (H1 & H2 & H3).
  { unfold population. simpl. rewrite app_nil_r, Nat.add_0_r. done. }
  rewrite leave_universes, leave_ethics, length_app. done.
Qed.

(** X11.  The genealogy is well formed: after construction and any number
    of steps every bubble has a decided consent; the first [n_initial]
    bubbles (the founders) have no parent; every later bubble names as its
    parent a bubble that precedes it in the population and carries that id;
    and when [inherit_consent] is set it has the consent of its parent. *)
Theorem genealogy (a : MultiverseArgs) (w0 : py_state)
    (m0 : Multiverse) (w1 : py_state) :
  Multiverse_init a w0 = (Ok m0, w1) ->
  forall (n : nat) (w : py_state) (i : nat) (u : Bubble),
    universes (steps n m0 w).1 !! i = Some u ->
    is_Some (consent u)
    /\ ((i < Z.to_nat (a_n_initial a))%nat -> parent_id u = None)
    /\ ((Z.to_nat (a_n_initial a) <= i)%nat ->
        exists p pu,
          parent_id u = Some p /\ (p < i)%nat
          /\ universes (steps n m0 w).1 !! p = Some pu /\ id pu = p
          /\ (inherit_consent (a_ethics_cfg a) = true ->
              consent u = consent pu)).
Proof.
  intros Hi n w i u Hu.
  apply Multiverse_init_ok in Hi as (_ & He & _ & _ & _ & _ & Hfo).
  set (n0 := Z.to_nat (a_n_initial a)) in *.
  set (inh := inherit_consent (a_ethics_cfg a)).
  assert (H : inherit_consent (cfg (ethics (steps n m0 w).1)) = inh
              /\ (n0 <= length (universes (steps n m0 w).1))%nat
              /\ lineage n0 inh (kin <$> universes (steps n m0 w).1)).
  { apply (steps_invariant
             (fun m => inherit_consent (cfg (ethics m)) = inh
                       /\ (n0 <= length (universes m))%nat
                       /\ lineage n0 inh (kin <$> universes m)));
      [intros m w'; apply lineage_step|].
    pose proof (founders_fresh n0 (a_inf_mean a)
                  (a_inf_sigma a) (engine (a_policy a) (a_ethics_cfg a))
                  (np_default_rng (a_seed a)) (py_seed (a_seed a)) []
                  (Forall_nil_2 _)) as Hf.
    pose proof (founders_ids n0 (a_inf_mean a)
                  (a_inf_sigma a) (engine (a_policy a) (a_ethics_cfg a))
                  (np_default_rng (a_seed a)) (py_seed (a_seed a)) []
                  eq_refl) as [Hids Hl].
    rewrite <- Hfo in Hf, Hids, Hl. simpl in Hf, Hids, Hl.
    split; [by rewrite He|]. split; [lia|].
    intros j k Hj. rewrite list_lookup_fmap in Hj.
    destruct (universes m0 !! j) as [v|] eqn:Hv; [|done].
    injection Hj as <-.
    pose proof (lookup_lt_Some _ _ _ Hv) as Hlt.
    destruct (Forall_lookup_1 _ _ _ _ Hf Hv) as (_ & _ & Hp & Hc & _).
    assert (Hid : id v = j).
    { assert (Hs : (id <$> universes m0) !! j = Some (id v))
        by (by rewrite list_lookup_fmap, Hv).
      rewrite Hids in Hs. apply lookup_seq in Hs as [-> _]. done. }
    simpl. split; [done|]. split; [done|]. split; [done|]. lia. }
  destruct H as (_ & _ & HK).
  assert (Hk : (kin <$> universes (steps n m0 w).1) !! i = Some (kin u))
    by (by rewrite list_lookup_fmap, Hu).
  destruct (HK i _ Hk) as (_ & Hd & Hf & Hc). simpl in *.
  split; [done|]. split; [done|].
  intros Hle. destruct (Hc Hle) as (p & kp & Hp & Hlt & Hkp & Hinh).
  rewrite list_lookup_fmap in Hkp.
  destruct (universes (steps n m0 w).1 !! p) as [pu|] eqn:Hpu; [|done].
  injection Hkp as <-.
  assert (Hk' : (kin <$> universes (steps n m0 w).1) !! p = Some (kin pu))
    by (by rewrite list_lookup_fmap, Hpu).
  destruct (HK p _ Hk') as (Hid & _).
  exists p, pu. by repeat split.
Qed.

(** ** Where the invariants go *)





(** ** An extinct population *)

Lemma extinct_loop (l : list nat) (s : LoopState) :
  Forall (fun u => stable u = false) (universes (sim s)) ->
  foldl visit s l = s.
Proof.
  intros Hd. induction l as [|i l IH]; [done|]. simpl.
  destruct (visit_cases s i) as [->|(u & Hu & Hs & _)]; [done|].
  pose proof (Forall_lookup_1 _ _ _ _ Hd Hu) as Hf. simpl in Hf. congruence.
Qed.

Lemma extinct_step (m : Multiverse) (w : py_state) :
  Forall (fun u => stable u = false) (universes m) ->
  step m w = (set_t (t m + 1) m, w).
Proof.
  intros Hd. rewrite step_unfold. unfold loop.
  rewrite extinct_loop by done. unfold leave, enter. simpl.
  rewrite app_nil_r. by destruct m.
Qed.

(** X13.  Once no bubble is stable (in particular when there is none at
    all), a step does nothing but advance [t]: no draw from either
    generator, no ledger entry, no change to any bubble, for any number of
    steps. *)
Theorem extinct_population_rests (m : Multiverse) (w : py_state) (n : nat) :
  Forall (fun u => stable u = false) (universes m) ->
  steps n m w = (set_t (t m + n) m, w).
Proof.
  revert m. induction n as [|n IH]; intros m Hd.
  - simpl. rewrite Nat.add_0_r. by destruct m.
  - rewrite steps_S, extinct_step by done. cbn [fst snd].
    rewrite IH by done. destruct m. unfold set_t. simpl.
    do 2 f_equal. lia.
Qed.

(** ** Metrics *)

Lemma stable_le_total (us : list Bubble) :
  (stable_count us <= length us)%nat.
Proof. pose proof (dead_count_complement us). lia. Qed.

Lemma ratio_range (a b : nat) :
  (a <= b)%nat -> (0 < b)%nat ->
  0 <= inject_Z (Z.of_nat a) / inject_Z (Z.of_nat b) <= 1.
Proof.
  intros Hab Hb.
  assert (H0 : 0 < inject_Z (Z.of_nat b)).
  { change 0 with (inject_Z 0). rewrite <- Zlt_Qlt. lia. }
  assert (Ha : 0 <= inject_Z (Z.of_nat a)).
  { change 0 with (inject_Z 0). rewrite <- Zle_Qle. lia. }
  assert (Hle : inject_Z (Z.of_nat a) <= inject_Z (Z.of_nat b)).
  { rewrite <- Zle_Qle. lia. }
  split.
  - apply Qle_shift_div_l; [done|]. lra.
  - apply Qle_shift_div_r; [done|]. lra.
Qed.

(** X14.  In every snapshot the stable count is at most the total count,
    the stability ratio [RCI] lies between 0 and 1, and for an empty
    population the ratio and both means are 0.0 (no division by zero). *)
Theorem metrics_bounds (m : Multiverse) :
  (m_universes_stable (metrics m) <= m_universes_total (metrics m))%nat
  /\ 0 <= m_RCI (metrics m) <= 1
  /\ (universes m = [] ->
      m_RCI (metrics m) = 0.0 /\ m_mean_inflation (metrics m) = 0.0
      /\ m_mean_invariants (metrics m) = 0.0)
  /\ (m_universes_stable (metrics m) = O ->
      m_mean_inflation (metrics m) = 0.0
      /\ m_mean_invariants (metrics m) = 0.0).
Proof.
  pose proof (stable_le_total (universes m)) as Hle.
  split; [exact Hle|]. split.
  { unfold metrics. simpl.
    destruct (length (universes m)) as [|k] eqn:Hk; [lra|].
    apply ratio_range; lia. }
  split.
  - intros Hnil. unfold metrics. rewrite Hnil. by repeat split.
  - unfold metrics. simpl. intros ->. by split.
Qed.

(** ** Construction *)


Lemma Forall_filter_stable (P : Bubble -> Prop) (us : list Bubble) :
  Forall P us -> Forall P (filter (fun u => stable u = true) us).
Proof.
  rewrite !Forall_forall. intros H u Hu.
  apply list_elem_of_filter in Hu as [_ Hu]. by apply H.
Qed.



(** ** The history of a run *)

Lemma steps_t (n : nat) (m : Multiverse) (w : py_state) :
  t (steps n m w).1 = (t m + n)%nat.
Proof.
  revert m w. induction n as [|n IH]; intros m w; [simpl; lia|].
  rewrite steps_S, IH.
  destruct (step_grows m w) as (_ & _ & -> & _). lia.
Qed.

Lemma history_snapshots (n : nat) (m : Multiverse) (w : py_state) :
  length (history n m w).1.1 = S n
  /\ ((history n m w).1.2, (history n m w).2) = steps n m w
  /\ forall k, (k <= n)%nat ->
       (history n m w).1.1 !! k = Some (metrics (steps k m w).1).
Proof.
  revert m w. induction n as [|n IH]; intros m w.
  { simpl. repeat split. intros k Hk. by assert (k = O) as -> by lia. }
  cbn [history]. rewrite steps_S.
  destruct (IH (step m w).1 (step m w).2) as (H1 & H2 & H3).
  destruct (step m w) as [m' w'] eqn:Hs. simpl in *.
  destruct (history n m' w') as [[h mf] wf]. simpl in *.
  split; [by rewrite H1|]. split; [done|].
  intros [|k] Hk; [done|]. rewrite (steps_S k), Hs.
  change ((metrics m :: h) !! S k) with (h !! k). apply H3. lia.
Qed.

(** X16.  What a run reports: for a valid construction it returns one
    snapshot per step and one for the start, the snapshot at position [k]
    being the metrics of the object after [k] steps, with [t] equal to [k],
    together with the ledger of the object after the last step. *)
Theorem run_reports (a : MultiverseArgs) (w0 : py_state)
    (m0 : Multiverse) (w1 : py_state) (n : nat) :
  Multiverse_init a w0 = (Ok m0, w1) ->
  exists h,
    run a n w0 = Ok (h, ledger (ethics (steps n m0 w1).1))
    /\ length h = S n
    /\ forall k, (k <= n)%nat ->
         h !! k = Some (metrics (steps k m0 w1).1)
         /\ m_t (metrics (steps k m0 w1).1) = k.
Proof.
  intros Hi. unfold run. rewrite Hi.
  destruct (history_snapshots n m0 w1) as (H1 & H2 & H3).
  destruct (history n m0 w1) as [[h mf] wf]. simpl in *.
  exists h. rewrite <- H2. simpl. split; [done|]. split; [done|].
  intros k Hk. split; [by apply H3|].
  rewrite steps_t.
  by apply Multiverse_init_ok in Hi as (_ & _ & _ & _ & -> & _).
Qed.

(** ** Consensual policy without consent *)

Lemma check_and_record_withheld (e : EthicsEngine) (t : nat) (ev : string)
    (src dst : option nat) (p : Q) (dc : bool) :
  mode (policy e) = "consensual" ->
  let r := check_and_record e t ev src dst p false dc in
  r.1.1.1 = false /\ r.1.2 = "no_consent".
Proof.
  intros Hm. unfold check_and_record.
  rewrite (proj2 (allows_export_mode _) (or_introl Hm)). simpl.
  by rewrite decide_True.
Qed.

Section NoConsent.
Hypothesis py_random_nonneg : forall w : py_state, 0 <= (py_random w).1.

Lemma never_consents (e : EthicsEngine) (w : py_state) :
  consent_prob (cfg e) <= 0 -> (decide_consent e None w).1 = false.
Proof.
  intros Hc. unfold decide_consent.
  pose proof (py_random_nonneg w) as Hr.
  destruct (py_random w) as [r w']. simpl in *. apply Qltb_ge. lra.
Qed.

Lemma founders_withheld (n : nat) (im isg : Q) (e : EthicsEngine)
    (g : np_state) (w : py_state) (us : list Bubble) :
  consent_prob (cfg e) <= 0 ->
  withheld us -> withheld (founders n im isg e g w us).2.
Proof.
  intros Hc. revert g w us. induction n as [|n IH]; intros g w us Hus; [done|].
  cbn [founders]. destruct (np_normal im isg g) as [x g'].
  pose proof (never_consents e w Hc) as Hn.
  destruct (decide_consent e None w) as [c w']. simpl in Hn. subst c.
  apply IH. apply Forall_app. split; [done|]. by apply Forall_singleton.
Qed.

Lemma unconsenting_tunnel (i : nat) (s : LoopState) :
  unconsenting s -> unconsenting (tunnel i s).
Proof.
  intros (Hm & Hcp & Hu & Hn & Hx & Hl). unfold unconsenting, tunnel, at_bubble.
  destruct (universes (sim s) !! i) as [u|] eqn:Hlk; [|done].
  pose proof (Forall_lookup_1 _ _ _ _ Hu Hlk) as Hc. simpl in Hc.
  rewrite Hc. cbn [decide_consent].
  repeat case_match; simplify_eq; simpl in *; try done;
    match goal with
    | H : check_and_record ?e ?t ?ev ?a ?b ?p false ?d = _ |- _ =>
        pose proof (check_and_record_engine e t ev a b p false d) as He;
        pose proof (check_and_record_ledger e t ev a b p false d) as Hle;
        pose proof (check_and_record_withheld e t ev a b p d Hm) as Hw;
        rewrite H in He, Hle, Hw; simpl in He, Hle, Hw;
        destruct He as (Hp & Hcf & _); destruct Hw as [-> ->]
    end; simpl in *; try discriminate;
    rewrite Hp, Hcf, Hle;
    (split; [done|]); (split; [done|]); (split; [done|]);
    (split; [apply Forall_app; split; [done|]; apply Forall_singleton; simpl;
             try done|]);
    try (split; [done|]; apply Forall_app; split; [done|];
         by apply Forall_singleton).
  all: match goal with
       | H : py_random ?w = (?r, _) |- Some (Qltb ?r _) = Some false =>
           pose proof (py_random_nonneg w) as Hnc; rewrite H in Hnc;
           simpl in Hnc; f_equal; apply Qltb_ge; lra
       end.
Qed.

Lemma unconsenting_collapse (i : nat) (s : LoopState) :
  unconsenting s -> unconsenting (collapse i s).
Proof.
  intros (Hm & Hcp & Hu & Hn & Hx & Hl).
  unfold unconsenting, collapse, at_bubble.
  destruct (universes (sim s) !! i) as [u|] eqn:Hlk; [|done].
  pose proof (Forall_lookup_1 _ _ _ _ Hu Hlk) as Hc. simpl in Hc.
  rewrite Hc. cbn [decide_consent].
  repeat case_match; simplify_eq; simpl in *; try done;
    match goal with
    | H : check_and_record ?e ?t ?ev ?a ?b ?p false ?d = _ |- _ =>
        pose proof (check_and_record_engine e t ev a b p false d) as He;
        pose proof (check_and_record_ledger e t ev a b p false d) as Hle;
        pose proof (check_and_record_withheld e t ev a b p d Hm) as Hw;
        rewrite H in He, Hle, Hw; simpl in He, Hle, Hw;
        destruct He as (Hp & Hcf & _); destruct Hw as [-> ->]
    end; simpl in *; try discriminate;
    rewrite Hp, Hcf, Hle;
    (split; [done|]); (split; [done|]);
    (split; [by apply Forall_insert|]); (split; [done|]); (split; [done|]);
    apply Forall_app; split; [done|]; by apply Forall_singleton.
Qed.

Lemma unconsenting_loop (l : list nat) (s : LoopState) :
  unconsenting s -> unconsenting (foldl visit s l).
Proof.
  apply (loop_invariant unconsenting);
    auto using unconsenting_tunnel, unconsenting_collapse;
    intros i s' (Hm & Hcp & Hu & Hn & Hx & Hl); unfold unconsenting;
    open_op; try done; repeat split; try done;
    (apply Forall_insert; [done|]);
    by apply (Forall_lookup_1 _ _ _ _ Hu) in H.
Qed.

End NoConsent.

(** X17.  Under the consensual policy with a consent probability of 0 (or
    less) and a [random.random()] that never returns a negative number, no
    bubble ever consents: after any number of steps every bubble withholds
    its consent, every ledger entry is a refusal with reason [no_consent],
    and the exported total is 0.0. *)
Theorem no_consent_no_export (a : MultiverseArgs) (w0 : py_state)
    (m0 : Multiverse) (w1 : py_state) :
  a_policy a = "consensual" ->
  consent_prob (a_ethics_cfg a) <= 0 ->
  (forall w : py_state, 0 <= (py_random w).1) ->
  Multiverse_init a w0 = (Ok m0, w1) ->
  forall (n : nat) (w : py_state),
    Forall (fun u => consent u = Some false) (universes (steps n m0 w).1)
    /\ Forall unconsented_entry (ledger (ethics (steps n m0 w).1))
    /\ exported_total (steps n m0 w).1 = 0.0.
Proof.
  intros Hp Hcp Hr Hi n w.
  apply Multiverse_init_ok in Hi as (_ & He & _ & _ & _ & Hx & Hfo).
  assert (H : unconsenting (enter (steps n m0 w).1 w)).
  { apply (steps_invariant (fun m => unconsenting (enter m w))).
    - intros m w' (Hm & Hc & Hu & _ & Hx' & Hl). rewrite step_unfold.
      destruct (unconsenting_loop Hr
                  (seq 0 (length (universes (sim (enter m w')))))
                  (enter m w')) as (H1 & H2 & H3 & H4 & H5 & H6).
      { split; [exact Hm|]. split; [exact Hc|]. split; [exact Hu|].
        split; [apply Forall_nil_2|]. split; [exact Hx'|exact Hl]. }
      split; [exact H1|]. split; [exact H2|].
      split; [apply Forall_app; by split|].
      split; [apply Forall_nil_2|]. split; [exact H5|exact H6].
    - unfold unconsenting, enter. cbn [sim new_universes].
      change (ethics (set_t (t m0 + 1) m0)) with (ethics m0).
      change (universes (set_t (t m0 + 1) m0)) with (universes m0).
      change (exported_total (set_t (t m0 + 1) m0))
        with (exported_total m0).
      split; [by rewrite He|]. split; [by rewrite He|].
      split.
      { pose proof (founders_withheld Hr (Z.to_nat (a_n_initial a))
                      (a_inf_mean a) (a_inf_sigma a)
                      (engine (a_policy a) (a_ethics_cfg a))
                      (np_default_rng (a_seed a)) (py_seed (a_seed a)) []
                      Hcp (Forall_nil_2 _)) as Hf.
        by rewrite <- Hfo in Hf. }
      split; [apply Forall_nil_2|]. split; [exact Hx|].
      rewrite He. apply Forall_nil_2. }
  destruct H as (_ & _ & Hu & _ & Hx' & Hl). done.
Qed.

(** ** Open policy *)

Lemma check_and_record_open (e : EthicsEngine) (t : nat) (ev : string)
    (src dst : option nat) (p : Q) (sc dc : bool) :
  mode (policy e) = "open" ->
  (check_and_record e t ev src dst p sc dc).1
  = (true, pymax 0.0 (p * (1.0 * strictness (cfg e))), "ok").
Proof.
  intros Hm. unfold check_and_record, scale.
  rewrite (proj2 (allows_export_mode _) (or_intror Hm)). simpl.
  rewrite decide_False by (rewrite Hm; discriminate).
  by rewrite decide_True.
Qed.

Lemma open_loop (st : Q) (l : list nat) (s : LoopState) :
  mode (policy (ethics (sim s))) = "open"
  /\ strictness (cfg (ethics (sim s))) = st
  /\ Forall (open_entry st) (ledger (ethics (sim s))) ->
  mode (policy (ethics (sim (foldl visit s l)))) = "open"
  /\ strictness (cfg (ethics (sim (foldl visit s l)))) = st
  /\ Forall (open_entry st) (ledger (ethics (sim (foldl visit s l)))).
Proof.
  apply (loop_invariant
           (fun s => mode (policy (ethics (sim s))) = "open"
                     /\ strictness (cfg (ethics (sim s))) = st
                     /\ Forall (open_entry st) (ledger (ethics (sim s)))));
    clear; intros i s (Hm & Hs & Hl).
  - open_op; done.
  - open_op; done.
  - open_op; try done;
      match goal with
      | H : check_and_record ?e ?t ?ev ?a ?b ?p ?c ?d = _ |- _ =>
          pose proof (check_and_record_engine e t ev a b p c d) as He;
          pose proof (check_and_record_ledger e t ev a b p c d) as Hle;
          pose proof (check_and_record_open e t ev a b p c d Hm) as Ho;
          rewrite H in He, Hle, Ho; simpl in He, Hle, Ho;
          destruct He as (Hp & Hcf & _); injection Ho as -> -> ->
      end;
      rewrite Hp, Hcf, Hle; (split; [done|]); (split; [done|]);
      (apply Forall_app; split; [done|]); apply Forall_singleton;
      by repeat split.
  - open_op; try done;
      match goal with
      | H : check_and_record ?e ?t ?ev ?a ?b ?p ?c ?d = _ |- _ =>
          pose proof (check_and_record_engine e t ev a b p c d) as He;
          pose proof (check_and_record_ledger e t ev a b p c d) as Hle;
          pose proof (check_and_record_open e t ev a b p c d Hm) as Ho;
          rewrite H in He, Hle, Ho; simpl in He, Hle, Ho;
          destruct He as (Hp & Hcf & _); injection Ho as -> -> ->
      end;
      rewrite Hp, Hcf, Hle; (split; [done|]); (split; [done|]);
      (apply Forall_app; split; [done|]); apply Forall_singleton;
      by repeat split.
Qed.

(** X18.  Under the open policy every ledger entry, of a birth or of a
    collapse and whatever the consents, is allowed with reason [ok], and
    its amount is the proposal times 1.0 times the strictness, floored at
    0. *)
Theorem open_policy_ledger (a : MultiverseArgs) (w0 : py_state)
    (m0 : Multiverse) (w1 : py_state) :
  a_policy a = "open" ->
  Multiverse_init a w0 = (Ok m0, w1) ->
  forall (n : nat) (w : py_state),
    Forall (open_entry (strictness (a_ethics_cfg a)))
      (ledger (ethics (steps n m0 w).1)).
Proof.
  intros Hp Hi n w.
  apply Multiverse_init_ok in Hi as (_ & He & _).
  set (st := strictness (a_ethics_cfg a)).
  assert (H : mode (policy (ethics (steps n m0 w).1)) = "open"
              /\ strictness (cfg (ethics (steps n m0 w).1)) = st
              /\ Forall (open_entry st) (ledger (ethics (steps n m0 w).1))).
  { apply (steps_invariant
             (fun m => mode (policy (ethics m)) = "open"
                       /\ strictness (cfg (ethics m)) = st
                       /\ Forall (open_entry st) (ledger (ethics m)))).
    - intros m w' Hm. rewrite step_unfold. unfold loop.
      rewrite leave_ethics. by apply open_loop.
    - rewrite He. simpl. by repeat split. }
  by destruct H as (_ & _ & H).
Qed.

(** ** No tunneling *)

Lemma Multiverse_init_dyn (a : MultiverseArgs) (w0 : py_state)
    (m0 : Multiverse) (w1 : py_state) :
  Multiverse_init a w0 = (Ok m0, w1) ->
  tunnel_rate (dyn m0) = a_tunnel_rate a
  /\ drift_sigma (dyn m0) = a_drift_sigma a
  /\ collapse_export_frac (dyn m0) = a_collapse_export_frac a.
Proof.
  unfold Multiverse_init, SovereigntyPolicy_init.
  case_decide; [|discriminate].
  destruct (founders _ _ _ _ _ _ _) as [[g' w'] us].
  by intros [= <- <-].
Qed.

Section NoTunnel.
Hypothesis random_nonneg : forall g : np_state, 0 <= (np_random g).1.

Lemma barren_tunnel (i : nat) (s : LoopState) :
  tunnel_rate (dyn (sim s)) <= 0 ->
  new_universes (tunnel i s) = new_universes s
  /\ ethics (sim (tunnel i s)) = ethics (sim s).
Proof.
  intros Hr. unfold tunnel, at_bubble.
  destruct (universes (sim s) !! i) as [u|]; [|done].
  case_match; [|done].
  pose proof (random_nonneg (rng (sim s))) as Hn.
  destruct (np_random (rng (sim s))) as [r g1]. simpl in Hn.
  by rewrite (proj2 (Qltb_ge r _)) by lra.
Qed.

Lemma barren_loop (l : list nat) (s : LoopState) :
  tunnel_rate (dyn (sim s)) <= 0
  /\ new_universes s = []
  /\ Forall (fun r => le_type r = "collapse") (ledger (ethics (sim s))) ->
  tunnel_rate (dyn (sim (foldl visit s l))) <= 0
  /\ new_universes (foldl visit s l) = []
  /\ Forall (fun r => le_type r = "collapse")
       (ledger (ethics (sim (foldl visit s l)))).
Proof.
  apply (loop_invariant
           (fun s => tunnel_rate (dyn (sim s)) <= 0
                     /\ new_universes s = []
                     /\ Forall (fun r => le_type r = "collapse")
                          (ledger (ethics (sim s)))));
    intros i s' (Hr & Hn & Hl).
  - destruct (frame_drift i s') as [-> _]. split; [done|]. open_op; done.
  - destruct (frame_produce i s') as [-> _]. split; [done|]. open_op; done.
  - destruct (frame_tunnel i s') as [-> _]. split; [done|].
    destruct (barren_tunnel i s' Hr) as [-> ->]. done.
  - destruct (frame_collapse i s') as [-> _]. split; [done|].
    open_op; try done;
      match goal with
      | H : check_and_record ?e ?t ?ev ?a ?b ?p ?c ?d = _ |- _ =>
          pose proof (check_and_record_ledger e t ev a b p c d) as Hle;
          rewrite H in Hle; simpl in Hle; rewrite Hle
      end;
      (split; [done|]); (apply Forall_app; split; [done|]);
      by apply Forall_singleton.
Qed.

End NoTunnel.

(** X19.  With a tunnel rate of 0 (or less) and an [rng.random()] that
    never returns a negative number, no bubble is ever born: after any
    number of steps the population is the [n_initial] founders and the
    ledger holds entries of type [collapse] only. *)
Theorem no_tunnel_no_birth (a : MultiverseArgs) (w0 : py_state)
    (m0 : Multiverse) (w1 : py_state) :
  a_tunnel_rate a <= 0 ->
  (forall g : np_state, 0 <= (np_random g).1) ->
  Multiverse_init a w0 = (Ok m0, w1) ->
  forall (n : nat) (w : py_state),
    length (universes (steps n m0 w).1) = Z.to_nat (a_n_initial a)
    /\ Forall (fun r => le_type r = "collapse")
         (ledger (ethics (steps n m0 w).1)).
Proof.
  intros Hr Hn Hi n w.
  pose proof Hi as Hi'.
  apply Multiverse_init_ok in Hi as (_ & He & _ & _ & _ & _ & Hfo).
  pose proof (Multiverse_init_dyn _ _ _ _ Hi') as (Hd & _).
  pose proof (founders_count (Z.to_nat (a_n_initial a)) (a_inf_mean a)
                (a_inf_sigma a) (engine (a_policy a) (a_ethics_cfg a))
                (np_default_rng (a_seed a)) (py_seed (a_seed a)) []) as Hl.
  rewrite <- Hfo in Hl. simpl in Hl.
  set (n0 := Z.to_nat (a_n_initial a)) in *.
  assert (H : tunnel_rate (dyn (steps n m0 w).1) <= 0
              /\ length (universes (steps n m0 w).1) = n0
              /\ Forall (fun r => le_type r = "collapse")
                   (ledger (ethics (steps n m0 w).1))).
  { apply (steps_invariant
             (fun m => tunnel_rate (dyn m) <= 0
                       /\ length (universes m) = n0
                       /\ Forall (fun r => le_type r = "collapse")
                            (ledger (ethics m)))).
    - intros m w' (H1 & H2 & H3). rewrite step_unfold. unfold loop.
      set (s := enter m w').
      set (l := seq 0 (length (universes (sim s)))).
      destruct (barren_loop Hn l s) as (H4 & H5 & H6); [by repeat split|].
      destruct (frame_loop l s) as (_ & _ & _ & _ & Hlen).
      rewrite leave_universes, leave_ethics, H5, app_nil_r, Hlen.
      split; [exact H4|]. split; [exact H2|exact H6].
    - rewrite Hd, He. simpl. by repeat split. }
  by destruct H as (_ & H1 & H2).
Qed.

(** ** Inflation rates *)

Lemma np_mean_nonneg (l : list Q) :
  Forall (fun x => 0 <= x) l -> 0 <= np_mean l.
Proof.
  intros H. unfold np_mean, Qdiv. apply Qmult_le_0_compat.
  - unfold Qsum. induction H as [|x l Hx _ IH]; simpl; lra.
  - apply Qinv_le_0_compat. change 0 with (inject_Z 0).
    rewrite <- Zle_Qle. lia.
Qed.

Lemma inflation_loop (l : list nat) (s : LoopState) :
  Forall (fun u => 0 <= inflation_rate u) (universes (sim s))
  /\ Forall (fun u => 0 <= inflation_rate u) (new_universes s) ->
  Forall (fun u => 0 <= inflation_rate u) (universes (sim (foldl visit s l)))
  /\ Forall (fun u => 0 <= inflation_rate u)
       (new_universes (foldl visit s l)).
Proof.
  apply (loop_invariant
           (fun s => Forall (fun u => 0 <= inflation_rate u)
                       (universes (sim s))
                     /\ Forall (fun u => 0 <= inflation_rate u)
                          (new_universes s)));
    clear; intros i s [Hu Hn].
  - open_op; try done. split; [|done].
    apply Forall_insert; [done|]. simpl. apply pymax_floor.
  - open_op; try done. split; [|done].
    apply Forall_insert; [done|]. simpl.
    by apply (Forall_lookup_1 _ _ _ _ Hu) in H.
  - open_op; try done;
      (split; [try apply Forall_insert; try done; simpl;
               by apply (Forall_lookup_1 _ _ _ _ Hu) in H|]);
      (apply Forall_app; split; [done|]); apply Forall_singleton; simpl;
      apply pymax_floor.
  - open_op; try done; (split; [|done]);
      (apply Forall_insert; [done|]); simpl;
      by apply (Forall_lookup_1 _ _ _ _ Hu) in H.
Qed.

(** X20.  Inflation rates are floored at 0: after construction and any
    number of steps, whatever the parameters and the draws, no bubble has a
    negative inflation rate, and the mean inflation of the metrics is not
    negative. *)
Theorem inflation_nonnegative (a : MultiverseArgs) (w0 : py_state)
    (m0 : Multiverse) (w1 : py_state) :
  Multiverse_init a w0 = (Ok m0, w1) ->
  forall (n : nat) (w : py_state),
    Forall (fun u => 0 <= inflation_rate u) (universes (steps n m0 w).1)
    /\ 0 <= m_mean_inflation (metrics (steps n m0 w).1).
Proof.
  intros Hi n w.
  apply Multiverse_init_ok in Hi as (_ & _ & _ & _ & _ & _ & Hfo).
  assert (H : Forall (fun u => 0 <= inflation_rate u)
                (universes (steps n m0 w).1)).
  2:{ split; [exact H|]. unfold metrics. cbn [m_mean_inflation].
      destruct (stable_count _); [lra|].
      apply np_mean_nonneg. apply Forall_fmap.
      by apply Forall_filter_stable. }
  apply (steps_invariant
           (fun m => Forall (fun u => 0 <= inflation_rate u) (universes m))).
  - intros m w' Hm. rewrite step_unfold. unfold loop.
    destruct (inflation_loop (seq 0 (length (universes (sim (enter m w')))))
                (enter m w')) as [H1 H2]; [by split|].
    rewrite leave_universes. apply Forall_app. by split.
  - pose proof (founders_fresh (Z.to_nat (a_n_initial a)) (a_inf_mean a)
                  (a_inf_sigma a) (engine (a_policy a) (a_ethics_cfg a))
                  (np_default_rng (a_seed a)) (py_seed (a_seed a)) []
                  (Forall_nil_2 _)) as Hf.
    rewrite <- Hfo in Hf. simpl in Hf.
    eapply Forall_impl; [exact Hf|]. by intros u (_ & _ & _ & _ & ?).
Qed.

(** ** The ledger fits the population *)

Lemma known_snoc (K : list (nat * option nat * option bool))
    (k : nat * option nat * option bool) (x : nat) :
  known K x -> known (K ++ [k]) x.
Proof.
  intros (j & kj & Hj & Hx). exists j, kj. split; [|done].
  by apply lookup_app_l_Some.
Qed.

Lemma entry_wf_snoc (tnow : nat) (md : string)
    (K : list (nat * option nat * option bool))
    (k : nat * option nat * option bool) (r : LedgerEntry) :
  entry_wf tnow md K r -> entry_wf tnow md (K ++ [k]) r.
Proof.
  intros (Ht & Hm & Ha & src & Hs & Hk & Hty).
  split; [done|]. split; [done|]. split; [done|].
  exists src. split; [done|]. split; [by apply known_snoc|].
  destruct Hty as [(Hb & d & j & kd & Hd & Hj & H1 & H2)|Hc]; [left|by right].
  split; [done|]. exists d, j, kd. split; [done|].
  split; [by apply lookup_app_l_Some|done].
Qed.

Lemma entry_wf_later (t1 t2 : nat) (md : string)
    (K : list (nat * option nat * option bool)) (r : LedgerEntry) :
  (t1 <= t2)%nat -> entry_wf t1 md K r -> entry_wf t2 md K r.
Proof.
  intros Hle (Ht & Hrest). split; [lia|done].
Qed.

Lemma fitting_loop (l : list nat) (s : LoopState) :
  (1 <= t (sim s))%nat
  /\ Forall (entry_wf (t (sim s)) (mode (policy (ethics (sim s))))
               (kin <$> (universes (sim s) ++ new_universes s)))
       (ledger (ethics (sim s))) ->
  (1 <= t (sim (foldl visit s l)))%nat
  /\ Forall (entry_wf (t (sim (foldl visit s l)))
               (mode (policy (ethics (sim (foldl visit s l)))))
               (kin <$> (universes (sim (foldl visit s l))
                         ++ new_universes (foldl visit s l))))
       (ledger (ethics (sim (foldl visit s l)))).
Proof.
  apply (loop_invariant
           (fun s =>
              (1 <= t (sim s))%nat
              /\ Forall (entry_wf (t (sim s))
                           (mode (policy (ethics (sim s))))
                           (kin <$> (universes (sim s) ++ new_universes s)))
                   (ledger (ethics (sim s)))));
    clear; intros i s [Ht Hl].
  - open_op; try done. split; [done|]. by erewrite kin_insert_app.
  - open_op; try done. split; [done|]. by erewrite kin_insert_app.
  - destruct (universes (sim s) !! i) as [u|] eqn:Hu;
      [|unfold tunnel, at_bubble; by rewrite Hu].
    assert (Hk : (kin <$> (universes (sim s) ++ new_universes s)) !! i
                 = Some (kin u)).
    { by rewrite list_lookup_fmap, lookup_app_l_Some with (x := u). }
    open_op; try done;
      match goal with
      | H : check_and_record ?e ?t ?ev ?a ?b ?p ?c ?d = _ |- _ =>
          pose proof (check_and_record_engine e t ev a b p c d) as He;
          pose proof (check_and_record_ledger e t ev a b p c d) as Hle;
          pose proof (check_and_record_floor e t ev a b p c d) as Hf;
          rewrite H in He, Hle, Hf; simpl in He, Hle, Hf;
          destruct He as (Hp & _)
      end;
      (split; [done|]); rewrite Hp, Hle;
      rewrite app_assoc, fmap_app; try (erewrite kin_insert_app by done);
      (apply Forall_app; split;
       [eapply Forall_impl; [exact Hl|]; intros r Hr; by apply entry_wf_snoc
       |apply Forall_singleton]);
      (split; [simpl; lia|]); (split; [done|]);
      (split; [simpl; try case_match; lra|]);
      exists (id u); (split; [done|]);
      (split; [apply known_snoc; by exists i, (kin u)|]);
      left; (split; [done|]);
      eexists _, (length (kin <$> (universes (sim s) ++ new_universes s))), _;
      (split; [done|]); (split; [apply list_lookup_middle; done|]);
      by split.
  - destruct (universes (sim s) !! i) as [u|] eqn:Hu;
      [|unfold collapse, at_bubble; by rewrite Hu].
    assert (Hk : (kin <$> (universes (sim s) ++ new_universes s)) !! i
                 = Some (kin u)).
    { by rewrite list_lookup_fmap, lookup_app_l_Some with (x := u). }
    open_op; try done;
      match goal with
      | H : check_and_record ?e ?t ?ev ?a ?b ?p ?c ?d = _ |- _ =>
          pose proof (check_and_record_engine e t ev a b p c d) as He;
          pose proof (check_and_record_ledger e t ev a b p c d) as Hle;
          pose proof (check_and_record_floor e t ev a b p c d) as Hf;
          rewrite H in He, Hle, Hf; simpl in He, Hle, Hf;
          destruct He as (Hp & _)
      end;
      (split; [done|]); rewrite Hp, Hle;
      (erewrite kin_insert_app by done);
      (apply Forall_app; split; [done|apply Forall_singleton]);
      (split; [simpl; lia|]); (split; [done|]);
      (split; [simpl; try case_match; lra|]);
      exists (id u); (split; [done|]);
      (split; [by exists i, (kin u)|]); by right.
Qed.

Lemma fitting_step (m : Multiverse) (w : py_state) :
  Forall (entry_wf (t m) (mode (policy (ethics m))) (kin <$> universes m))
    (ledger (ethics m)) ->
  Forall (entry_wf (t (step m w).1) (mode (policy (ethics (step m w).1)))
            (kin <$> universes (step m w).1))
    (ledger (ethics (step m w).1)).
Proof.
  intros Hm. rewrite step_unfold. unfold loop.
  destruct (fitting_loop (seq 0 (length (universes (sim (enter m w)))))
              (enter m w)) as [_ H]; [|exact H].
  split; [simpl; lia|]. simpl. rewrite app_nil_r.
  eapply Forall_impl; [exact Hm|]. intros r. apply entry_wf_later. lia.
Qed.

(** X21.  The ledger fits the population: after construction and [n]
    steps every entry was written at a step between 1 and [n] under the
    policy of the run, with an amount that is not negative, and its source
    is the id of a bubble of the population; an entry of a birth names as
    destination a bubble of the population whose parent is the source; an
    entry of a collapse names no destination and records the destination
    consent as granted; there is no other type of entry. *)
Theorem ledger_fits_population (a : MultiverseArgs) (w0 : py_state)
    (m0 : Multiverse) (w1 : py_state) :
  Multiverse_init a w0 = (Ok m0, w1) ->
  forall (n : nat) (w : py_state) (r : LedgerEntry),
    r ∈ ledger (ethics (steps n m0 w).1) ->
    (1 <= le_t r <= n)%nat
    /\ le_policy r = a_policy a
    /\ 0 <= le_amount r
    /\ exists src pu,
         le_src r = Some src
         /\ universes (steps n m0 w).1 !! src = Some pu
         /\ ((le_type r = "birth"
              /\ exists d cu, le_dst r = Some d
                   /\ universes (steps n m0 w).1 !! d = Some cu
                   /\ parent_id cu = Some src)
             \/ (le_type r = "collapse" /\ le_dst r = None
                 /\ le_dst_consents r = true)).
Proof.
  intros Hi n w r Hr.
  pose proof Hi as Hi'.
  apply Multiverse_init_ok in Hi as (_ & He & _ & _ & Ht0 & _ & Hfo).
  set (n0 := Z.to_nat (a_n_initial a)).
  set (inh := inherit_consent (a_ethics_cfg a)).
  set (m := (steps n m0 w).1) in *.
  assert (H : (inherit_consent (cfg (ethics m)) = inh
               /\ (n0 <= length (universes m))%nat
               /\ lineage n0 inh (kin <$> universes m))
              /\ mode (policy (ethics m)) = a_policy a
              /\ Forall (entry_wf (t m) (mode (policy (ethics m)))
                           (kin <$> universes m)) (ledger (ethics m))).
  { apply (steps_invariant
             (fun m =>
                (inherit_consent (cfg (ethics m)) = inh
                 /\ (n0 <= length (universes m))%nat
                 /\ lineage n0 inh (kin <$> universes m))
                /\ mode (policy (ethics m)) = a_policy a
                /\ Forall (entry_wf (t m) (mode (policy (ethics m)))
                             (kin <$> universes m)) (ledger (ethics m)))).
    - intros m' w' (HL & Hmd & HF).
      split; [by apply lineage_step|]. split; [|by apply fitting_step].
      by destruct (step_grows m' w') as (_ & _ & _ & _ & -> & _).
    - split.
      + pose proof (founders_fresh n0 (a_inf_mean a)
                      (a_inf_sigma a) (engine (a_policy a) (a_ethics_cfg a))
                      (np_default_rng (a_seed a)) (py_seed (a_seed a)) []
                      (Forall_nil_2 _)) as Hf.
        pose proof (founders_ids n0 (a_inf_mean a)
                      (a_inf_sigma a) (engine (a_policy a) (a_ethics_cfg a))
                      (np_default_rng (a_seed a)) (py_seed (a_seed a)) []
                      eq_refl) as [Hids Hl].
        unfold n0 in Hf, Hids, Hl.
        rewrite <- Hfo in Hf, Hids, Hl. simpl in Hf, Hids, Hl.
        split; [by rewrite He|]. split; [unfold n0; lia|].
        intros j k Hj. rewrite list_lookup_fmap in Hj.
        destruct (universes m0 !! j) as [v|] eqn:Hv; [|done].
        injection Hj as <-.
        pose proof (lookup_lt_Some _ _ _ Hv) as Hlt.
        destruct (Forall_lookup_1 _ _ _ _ Hf Hv) as (_ & _ & Hp & Hc & _).
        assert (Hid : id v = j).
        { assert (Hs : (id <$> universes m0) !! j = Some (id v))
            by (by rewrite list_lookup_fmap, Hv).
          rewrite Hids in Hs. apply lookup_seq in Hs as [-> _]. done. }
        simpl. split; [done|]. split; [done|]. split; [done|].
        unfold n0. lia.
      + rewrite He. simpl. split; [done|]. apply Forall_nil_2. }
  destruct H as ((_ & _ & HK) & Hmd & HF).
  rewrite Forall_forall in HF.
  destruct (HF r Hr) as (Ht & Hpol & Ham & src & Hsrc & Hkn & Hty).
  assert (Htn : t m = n).
  { unfold m. rewrite steps_t, Ht0. done. }
  assert (Hpos : forall x j k,
             (kin <$> universes m) !! j = Some k -> k.1.1 = x ->
             exists u, universes m !! x = Some u /\ kin u = k).
  { intros x j k Hj Hx. destruct (HK j k Hj) as (Hjk & _).
    assert (j = x) as -> by congruence.
    rewrite list_lookup_fmap in Hj.
    destruct (universes m !! x) as [u|]; [|done].
    injection Hj as <-. by exists u. }
  split; [lia|]. split; [congruence|]. split; [done|].
  destruct Hkn as (j & k & Hj & Hx).
  destruct (Hpos src j k Hj Hx) as (pu & Hpu & _).
  exists src, pu. split; [done|]. split; [done|].
  destruct Hty as [(Hb & d & jd & kd & Hd & Hjd & H1 & H2)|Hc]; [left|by right].
  split; [done|].
  destruct (Hpos d jd kd Hjd H1) as (cu & Hcu & Hkin).
  exists d, cu. split; [done|]. split; [done|].
  rewrite <- Hkin in H2. exact H2.
Qed.

(** ** Inherited consent and the [random] module *)

Lemma inheriting_step_glob (m : Multiverse) (w : py_state) :
  inherit_consent (cfg (ethics m)) = true -> decided (universes m) ->
  (step m w).2 = w.
Proof.
  intros Hi Hu. rewrite step_unfold. unfold loop.
  assert (Hs : inheriting (enter m w)).
  { split; [exact Hi|]. split; [exact Hu|]. apply Forall_nil_2. }
  change (enter m w) with (reglob w (enter m w)) at 1. simpl.
  destruct (inheriting_loop w (seq 0 (length (universes m))) _ Hs)
    as [_ ->].
  reflexivity.
Qed.

(** X22.  With [inherit_consent] set, stepping leaves the [random] module
    alone: after construction, any number of steps returns the module in
    the state in which it was handed over, so code that shares the module
    with the simulation sees no draw of it. *)
Theorem inherited_consent_draws_nothing (a : MultiverseArgs)
    (w0 : py_state) (m0 : Multiverse) (w1 : py_state) :
  inherit_consent (a_ethics_cfg a) = true ->
  Multiverse_init a w0 = (Ok m0, w1) ->
  forall (n : nat) (w : py_state), (steps n m0 w).2 = w.
Proof.
  intros Hinh Hi n w.
  apply Multiverse_init_ok in Hi as (_ & He & _ & _ & _ & _ & Hfo).
  assert (Hd : decided (universes m0)).
  { pose proof (founders_decided (Z.to_nat (a_n_initial a)) (a_inf_mean a)
                  (a_inf_sigma a) (engine (a_policy a) (a_ethics_cfg a))
                  (np_default_rng (a_seed a)) (py_seed (a_seed a)) []
                  (Forall_nil_2 _)) as H.
    by rewrite <- Hfo in H. }
  assert (H0 : inherit_consent (cfg (ethics m0)) = true) by (by rewrite He).
  clear He Hfo. revert m0 Hd H0.
  induction n as [|n IH]; intros m0 Hd H0; [done|].
  rewrite steps_S.
  destruct (inheriting_step m0 w w H0 Hd) as (_ & H1 & H2).
  rewrite (inheriting_step_glob m0 w H0 Hd). by apply IH.
Qed.

End Properties.

(** * The statements on concrete runs *)

(** An open policy throttled to 0.7 lets 0.7 of a proposal of 1.0 through. *)
Example open_throttled :
  let r := check_and_record (engine "open" (Demo.demo_cfg true 0.7)) 1
             "collapse" (Some 0%nat) None 1.0 true true in
  r.1.1.1 = true /\ r.1.1.2 == 0.7 /\ r.1.2 = "ok"
  /\ le_amount <$> ledger r.2 = [r.1.1.2].
Proof. by repeat split. Qed.

(** Before the first step: one founder, stable, nothing exported. *)
Example metrics_at_start :
  exists m0 w1,
    Multiverse_init (RT := Demo.demo_runtime) (Demo.eager_args 1.0) 0%Z
      = (Ok m0, w1)
    /\ m_t (metrics m0) = 0%nat
    /\ m_universes_total (metrics m0) = 1%nat
    /\ m_universes_stable (metrics m0) = 1%nat
    /\ m_RCI (metrics m0) == 1
    /\ m_dE (metrics m0) == 0.
Proof.
  eexists _, _. split; [vm_compute; reflexivity|]. by repeat split.
Qed.

Lemma closed_policy_invariant_witness :
  exists m0 w1,
    Multiverse_init (RT := Demo.demo_runtime) Demo.closed_args 5%Z
      = (Ok m0, w1)
    /\ length (ledger (ethics (steps 3 m0 w1).1)) = 14%nat
    /\ exported_total (steps 3 m0 w1).1 = 0.0
    /\ Forall closed_entry (ledger (ethics (steps 3 m0 w1).1)).
Proof.
  eexists _, _. split; [vm_compute; reflexivity|].
  split; [vm_compute; reflexivity|].
  refine (let H := closed_policy_invariant (RT := Demo.demo_runtime)
                     Demo.closed_args 5%Z _ _
                     eq_refl eq_refl 3 _ in _).
  split; [exact (proj1 H)|exact (proj2 (proj2 H))].
Defined.

Lemma resource_nonnegative_witness :
  exists m0 w1,
    Multiverse_init (RT := Demo.demo_runtime) (Demo.eager_args 1.0) 0%Z
      = (Ok m0, w1)
    /\ export_factor (engine "open" (Demo.demo_cfg true 1.0)) <= 1
    /\ Forall (fun u => 0 <= invariants u) (universes (steps 3 m0 w1).1).
Proof.
  eexists _, _. split; [vm_compute; reflexivity|].
  split; [vm_compute; discriminate|].
  refine (proj1 (resource_nonnegative (RT := Demo.demo_runtime)
                   (Demo.eager_args 1.0) 0%Z _ _ _ eq_refl) 3%nat _).
  vm_compute. discriminate.
Defined.

(** C3 as stated fails: with the open policy and strictness 2.0 the founder
    of [eager_args] holds 0.23 when its first child is born, 0.2 is
    proposed, 0.4 is authorized and taken, and the founder is left with
    -0.17. *)
Lemma resource_negative_counterexample :
  exists m0 w1 u,
    Multiverse_init (RT := Demo.demo_runtime) (Demo.eager_args 2.0) 0%Z
      = (Ok m0, w1)
    /\ universes (step m0 w1).1 !! 0%nat = Some u
    /\ invariants u == - 0.17
    /\ ~ 0 <= invariants u.
Proof.
  eexists _, _, _. split; [vm_compute; reflexivity|].
  split; [vm_compute; reflexivity|].
  split; [vm_compute; reflexivity|].
  vm_compute. intros H. by apply H.
Qed.

Lemma id_sequence_witness :
  exists m0 w1,
    Multiverse_init (RT := Demo.demo_runtime) (Demo.eager_args 1.0) 0%Z
      = (Ok m0, w1)
    /\ id <$> universes (steps 3 m0 w1).1 = [0; 1; 2; 3; 4; 5; 6; 7]%nat.
Proof.
  eexists _, _. split; [vm_compute; reflexivity|].
  refine (eq_trans
            (proj1 (id_sequence (RT := Demo.demo_runtime)
                      (Demo.eager_args 1.0) 0%Z _ _ eq_refl 3%nat _)) _).
  vm_compute. reflexivity.
Defined.


Lemma lcg_uniform_nonneg (g : Z) : 0 <= (Demo.lcg_uniform g).1.
Proof.
  unfold Demo.lcg_uniform, Qle. simpl.
  pose proof (Z.mod_pos_bound g 16 eq_refl). lia.
Qed.




(** ** The further properties on concrete inputs *)

Lemma authorized_amount_witness :
  (check_and_record (engine "consensual" (Demo.demo_cfg true 0.5)) 1
     "birth" (Some 0%nat) (Some 1%nat) 0.8 true true).1.1.2 == 0.2.
Proof.
  refine (Qeq_trans _ _ _
            (proj1 (authorized_amount
                      (engine "consensual" (Demo.demo_cfg true 0.5)) 1
                      "birth" (Some 0%nat) (Some 1%nat) 0.8 true true
                      _ _ _)) _).
  - split; vm_compute; discriminate.
  - vm_compute; discriminate.
  - right. split; [reflexivity|]. split; [reflexivity|]. intros _.
    reflexivity.
  - reflexivity.
Defined.

Lemma collapse_prob_band_witness :
  0.5 * 0.01 <= _collapse_prob (Demo.demo_sim [Demo.live_bubble])
                  Demo.live_bubble <= 1.5 * 0.01.
Proof.
  apply (collapse_prob_band (RT := Demo.demo_runtime)
           (Demo.demo_sim [Demo.live_bubble]) Demo.live_bubble);
    vm_compute; discriminate.
Defined.

Lemma exported_total_audited_witness :
  exists m0 w1,
    Multiverse_init (RT := Demo.demo_runtime) Demo.lively_args 0%Z
      = (Ok m0, w1)
    /\ m_dE (metrics (steps 3 m0 w1).1)
       == ledger_total (ledger (ethics (steps 3 m0 w1).1)).
Proof.
  eexists _, _. split; [vm_compute; reflexivity|].
  exact (exported_total_audited (RT := Demo.demo_runtime) Demo.lively_args
           0%Z _ _ eq_refl 3%nat _).
Defined.

Lemma collapse_is_final_witness :
  universes (steps 3 (Demo.demo_sim [Demo.dead_bubble; Demo.live_bubble])
               5%Z).1 !! 0%nat
  = Some Demo.dead_bubble.
Proof.
  exact (collapse_is_final (RT := Demo.demo_runtime)
           (Demo.demo_sim [Demo.dead_bubble; Demo.live_bubble]) 0
           Demo.dead_bubble eq_refl eq_refl 3%nat 5%Z).
Defined.

Lemma collapsed_hold_nothing_witness :
  exists m0 w1 u,
    Multiverse_init (RT := Demo.demo_runtime) Demo.lively_args 0%Z
      = (Ok m0, w1)
    /\ universes (steps 2 m0 w1).1 !! 0%nat = Some u
    /\ stable u = false
    /\ invariants u = 0.0.
Proof.
  eexists _, _, _. split; [vm_compute; reflexivity|].
  split; [vm_compute; reflexivity|]. split; [reflexivity|].
  eapply (collapsed_hold_nothing (RT := Demo.demo_runtime) Demo.lively_args
            0%Z _ _ eq_refl 2%nat 2%Z 0%nat).
  - vm_compute. reflexivity.
  - reflexivity.
Defined.

Lemma ledger_counts_events_witness :
  exists m0 w1,
    Multiverse_init (RT := Demo.demo_runtime) Demo.lively_args 0%Z
      = (Ok m0, w1)
    /\ (count_type "birth" (ledger (ethics (steps 2 m0 w1).1)) + 2
        = length (universes (steps 2 m0 w1).1))%nat.
Proof.
  eexists _, _. split; [vm_compute; reflexivity|].
  exact (proj1 (ledger_counts_events (RT := Demo.demo_runtime)
                  Demo.lively_args 0%Z _ _ eq_refl 2%nat _)).
Defined.

Lemma genealogy_witness :
  exists m0 w1 u,
    Multiverse_init (RT := Demo.demo_runtime) Demo.lively_args 0%Z
      = (Ok m0, w1)
    /\ universes (steps 2 m0 w1).1 !! 5%nat = Some u
    /\ is_Some (consent u).
Proof.
  eexists _, _, _. split; [vm_compute; reflexivity|].
  split; [vm_compute; reflexivity|].
  refine (proj1 (genealogy (RT := Demo.demo_runtime) Demo.lively_args
                   0%Z _ _ eq_refl 2%nat 2%Z 5%nat _ _)).
  vm_compute. reflexivity.
Defined.


Lemma extinct_population_rests_witness :
  steps 5 (Demo.demo_sim [Demo.dead_bubble]) 5%Z
  = (set_t 9 (Demo.demo_sim [Demo.dead_bubble]), 5%Z).
Proof.
  apply (extinct_population_rests (RT := Demo.demo_runtime)
           (Demo.demo_sim [Demo.dead_bubble]) 5%Z 5).
  apply Forall_singleton. reflexivity.
Defined.


Lemma run_reports_witness :
  exists m0 w1 h,
    Multiverse_init (RT := Demo.demo_runtime) Demo.lively_args 0%Z
      = (Ok m0, w1)
    /\ run (RT := Demo.demo_runtime) Demo.lively_args 3 0%Z
       = Ok (h, ledger (ethics (steps 3 m0 w1).1))
    /\ length h = 4%nat.
Proof.
  eexists _, _.
  assert (Hi : Multiverse_init (RT := Demo.demo_runtime) Demo.lively_args 0%Z
               = (Ok _, _)) by (vm_compute; reflexivity).
  destruct (run_reports (RT := Demo.demo_runtime) Demo.lively_args 0%Z
              _ _ 3 Hi) as (h & Hr & Hl & _).
  exists h. split; [exact Hi|]. split; [exact Hr|exact Hl].
Defined.

Lemma no_consent_no_export_witness :
  exists m0 w1,
    Multiverse_init (RT := Demo.demo_runtime) Demo.unwilling_args 0%Z
      = (Ok m0, w1)
    /\ length (ledger (ethics (steps 2 m0 w1).1)) = 7%nat
    /\ exported_total (steps 2 m0 w1).1 = 0.0.
Proof.
  eexists _, _. split; [vm_compute; reflexivity|].
  split; [vm_compute; reflexivity|].
  refine (proj2 (proj2
            (no_consent_no_export (RT := Demo.demo_runtime)
               Demo.unwilling_args 0%Z _ _ eq_refl _ lcg_uniform_nonneg
               eq_refl 2%nat _))).
  vm_compute. discriminate.
Defined.

Lemma open_policy_ledger_witness :
  exists m0 w1,
    Multiverse_init (RT := Demo.demo_runtime) Demo.lively_args 0%Z
      = (Ok m0, w1)
    /\ Forall (open_entry 1.0) (ledger (ethics (steps 2 m0 w1).1)).
Proof.
  eexists _, _. split; [vm_compute; reflexivity|].
  exact (open_policy_ledger (RT := Demo.demo_runtime) Demo.lively_args
           0%Z _ _ eq_refl eq_refl 2%nat _).
Defined.

Lemma no_tunnel_no_birth_witness :
  exists m0 w1,
    Multiverse_init (RT := Demo.demo_runtime) Demo.barren_args 0%Z
      = (Ok m0, w1)
    /\ length (universes (steps 6 m0 w1).1) = 2%nat.
Proof.
  eexists _, _. split; [vm_compute; reflexivity|].
  refine (proj1 (no_tunnel_no_birth (RT := Demo.demo_runtime)
                   Demo.barren_args 0%Z _ _ _ lcg_uniform_nonneg eq_refl
                   6%nat _)).
  vm_compute. discriminate.
Defined.

Lemma inflation_nonnegative_witness :
  exists m0 w1,
    Multiverse_init (RT := Demo.demo_runtime) Demo.lively_args 0%Z
      = (Ok m0, w1)
    /\ 0 <= m_mean_inflation (metrics (steps 3 m0 w1).1).
Proof.
  eexists _, _. split; [vm_compute; reflexivity|].
  exact (proj2 (inflation_nonnegative (RT := Demo.demo_runtime)
                  Demo.lively_args 0%Z _ _ eq_refl 3%nat _)).
Defined.

Lemma ledger_fits_population_witness :
  exists m0 w1 r,
    Multiverse_init (RT := Demo.demo_runtime) Demo.lively_args 0%Z
      = (Ok m0, w1)
    /\ ledger (ethics (steps 2 m0 w1).1) !! 3%nat = Some r
    /\ (1 <= le_t r <= 2)%nat.
Proof.
  eexists _, _, _. split; [vm_compute; reflexivity|].
  split; [vm_compute; reflexivity|].
  refine (proj1 (ledger_fits_population (RT := Demo.demo_runtime)
                   Demo.lively_args 0%Z _ _ eq_refl 2%nat 2%Z _ _)).
  apply (list_elem_of_lookup_2 _ 3%nat). vm_compute. reflexivity.
Defined.

Lemma inherited_consent_draws_nothing_witness :
  exists m0 w1,
    Multiverse_init (RT := Demo.demo_runtime) (Demo.eager_args 1.0) 0%Z
      = (Ok m0, w1)
    /\ (steps 3 m0 11%Z).2 = 11%Z.
Proof.
  eexists _, _. split; [vm_compute; reflexivity|].
  exact (inherited_consent_draws_nothing (RT := Demo.demo_runtime)
           (Demo.eager_args 1.0) 0%Z _ _ eq_refl eq_refl 3%nat 11%Z).
Defined.
